(** * NASA APOD Explorer: the fetch/cache helper, the error normaliser,
      the date validator and the random-date generator of [index.js]

    The development embeds the server code of the repository shallowly:
    the JavaScript built-ins the code relies on ([parseInt], the date-only
    form of [Date.parse], [Date.prototype.toISOString], [RegExp.test] for
    the one pattern in use, [String.prototype.split] for [split('T')[0]])
    are written out as functions on [Z] and [string]; the module state
    ([apodCache], [RATE_LIMIT]) is threaded explicitly through a small
    state/exception monad that also records every outbound [axios.get].
    A handler runs to completion except at its one [await]: there the
    other requests being served may change the module state, and the
    handler resumes on what they left.  Console output is not modelled.

    Three variants of the server file are covered: [index.js] (module
    [Index]), the variant with JSON endpoints (module [Part001]) and the
    first, cache-less variant (module [Part000]). *)

From Stdlib Require Import ZArith String Ascii List Bool Lia.
From stdpp Require Import base option gmap strings.

Local Open Scope string_scope.
Local Open Scope Z_scope.

(* ===================================================================== *)
(** * JavaScript built-ins *)
(* ===================================================================== *)

Module JS.

(** A JavaScript number as the code uses it: an integer-valued double,
    [NaN], or an infinity.  Time stamps, counters in use and HTTP status
    codes are integers below 2^53, which doubles hold exactly; what
    [parseInt] and a product of doubles yield is rounded to a double by
    [round53] below.  The sign of a zero is not kept: the code only
    compares and prints these numbers, and [-0] compares and prints as
    [0]. *)
Inductive number : Type :=
| NaN
| Num (z : Z)
| PosInf
| NegInf.

(** [a < b] and [a > b] on numbers: every comparison with [NaN] is false. *)
Definition lt (a b : number) : bool :=
  match a, b with
  | Num x, Num y => x <? y
  | NegInf, Num _ | NegInf, PosInf | Num _, PosInf => true
  | _, _ => false
  end.

Definition gt (a b : number) : bool :=
  match a, b with
  | Num x, Num y => x >? y
  | PosInf, Num _ | PosInf, NegInf | Num _, NegInf => true
  | _, _ => false
  end.

(** Rounding to the 53 significant bits of a double, to nearest, ties to
    even: for [0 <= p], the integer nearest to [p] among those of the
    form [q * 2^s] with [q < 2^53].  Scaling by a power of two is exact
    in the range used here (no subnormals), so the double nearest to
    [p / 2^k] is [round53 p / 2^k]. *)
Definition round53 (p : Z) : Z :=
  let s := Z.log2 p - 52 in
  if s <=? 0 then p
  else
    let q := p / 2 ^ s in
    let r := p mod 2 ^ s in
    let half := 2 ^ (s - 1) in
    let q' := if (r >? half) || ((r =? half) && Z.odd q) then q + 1 else q in
    q' * 2 ^ s.

(** The Number value for an integer: the nearest double, an infinity
    from 2^1024 on. *)
Definition to_number (z : Z) : number :=
  let w := round53 (Z.abs z) in
  if w >=? 2 ^ 1024 then (if z <? 0 then NegInf else PosInf)
  else Num (Z.sgn z * w).

(** [Math.floor(u * t)] for the double [u = m / 2^53] and an
    integer-valued double [t]: the product [m * t / 2^53] is rounded to
    a double before the floor is taken. *)
Definition floor_product (m t : Z) : Z :=
  (Z.sgn (m * t) * round53 (Z.abs (m * t))) / 2 ^ 53.

(** Truthiness of a string: only the empty string is falsy. *)
Definition truthy (s : string) : bool :=
  match s with
  | EmptyString => false
  | String _ _ => true
  end.

(** Truthiness of a value that is a string or [undefined]/[null]. *)
Definition truthy_opt (v : option string) : bool :=
  match v with
  | Some s => truthy s
  | None => false
  end.

(** ** Characters and digits *)

Definition code (c : ascii) : Z := Z.of_N (N_of_ascii c).

Definition is_digit (c : ascii) : bool := (48 <=? code c) && (code c <=? 57).

Definition digit_val (c : ascii) : Z := code c - 48.

Definition digit_char (k : Z) : ascii := ascii_of_N (Z.to_N (48 + k)).

(** Value of a hexadecimal digit, if the character is one. *)
Definition hex_val (c : ascii) : option Z :=
  let n := code c in
  if (48 <=? n) && (n <=? 57) then Some (n - 48)
  else if (97 <=? n) && (n <=? 102) then Some (n - 87)
  else if (65 <=? n) && (n <=? 70) then Some (n - 55)
  else None.

Definition dec_val (c : ascii) : option Z :=
  if is_digit c then Some (digit_val c) else None.

(** White space that [parseInt] skips, among the code units a header
    value can hold: TAB, LF, VT, FF, CR, SP and NBSP. *)
Definition is_space (c : ascii) : bool :=
  let n := code c in
  ((9 <=? n) && (n <=? 13)) || (n =? 32) || (n =? 160).

Fixpoint skip_spaces (s : string) : string :=
  match s with
  | String c s' => if is_space c then skip_spaces s' else s
  | EmptyString => EmptyString
  end.

(** The longest prefix of radix digits, accumulated left to right;
    [None] when there is no digit at all. *)
Fixpoint digits_prefix (val : ascii -> option Z) (radix : Z)
    (acc : option Z) (s : string) : option Z :=
  match s with
  | String c s' =>
      match val c with
      | Some d =>
          digits_prefix val radix
            (Some (match acc with Some a => a * radix + d | None => d end)) s'
      | None => acc
      end
  | EmptyString => acc
  end.

(** [parseInt(s)] with the radix left out: leading white space, an
    optional sign, an optional [0x]/[0X] prefix, then the digits; the
    integer they write is returned as a Number, that is, rounded to the
    nearest double. *)
Definition parseInt (s : string) : number :=
  let s1 := skip_spaces s in
  let '(sign, s2) :=
    match s1 with
    | String c r =>
        if Ascii.eqb c "-" then (-1, r)
        else if Ascii.eqb c "+" then (1, r)
        else (1, s1)
    | EmptyString => (1, s1)
    end in
  let '(val, radix, s3) :=
    match s2 with
    | String c0 (String cx r) =>
        if Ascii.eqb c0 "0" && (Ascii.eqb cx "x" || Ascii.eqb cx "X")
        then (hex_val, 16, r)
        else (dec_val, 10, s2)
    | _ => (dec_val, 10, s2)
    end in
  match digits_prefix val radix None s3 with
  | Some v => to_number (sign * v)
  | None => NaN
  end.

(** ** The pattern [/^\d{4}-\d{2}-\d{2}$/] *)

(** The atoms the pattern is made of. *)
Inductive atom : Type :=
| Digit                (* \d *)
| Lit (c : ascii).     (* a literal character *)

Definition atom_matches (a : atom) (c : ascii) : bool :=
  match a with
  | Digit => is_digit c
  | Lit l => Ascii.eqb c l
  end.

(** An anchored match ([^ ... $], no flags): the atoms consume the whole
    input, one character each. *)
Fixpoint match_anchored (p : list atom) (s : string) : bool :=
  match p, s with
  | [], EmptyString => true
  | a :: p', String c s' => atom_matches a c && match_anchored p' s'
  | _, _ => false
  end.

Definition dateRegex : list atom :=
  [Digit; Digit; Digit; Digit; Lit "-"; Digit; Digit; Lit "-"; Digit; Digit].

Definition regex_test (p : list atom) (s : string) : bool := match_anchored p s.

(** ** Dates *)

Definition msPerDay : Z := 86400000.

(** Day number (days since 1970-01-01) of a proleptic Gregorian date;
    the day of the month is added to the first of the month, so a day
    past the end of the month rolls over, as [MakeDay] does. *)
Definition days_from_civil (y m d : Z) : Z :=
  let y' := if m <=? 2 then y - 1 else y in
  let era := y' / 400 in
  let yoe := y' - era * 400 in
  let mp := if m >? 2 then m - 3 else m + 9 in
  let doy := (153 * mp + 2) / 5 + d - 1 in
  let doe := yoe * 365 + yoe / 4 - yoe / 100 + doy in
  era * 146097 + doe - 719468.

(** Year, month (1-12) and day of the month of a day number. *)
Definition civil_from_days (n : Z) : Z * Z * Z :=
  let z := n + 719468 in
  let era := z / 146097 in
  let doe := z - era * 146097 in
  let yoe := (doe - doe / 1460 + doe / 36524 - doe / 146096) / 365 in
  let doy := doe - (365 * yoe + yoe / 4 - yoe / 100) in
  let mp := (5 * doy + 2) / 153 in
  let d := doy - (153 * mp + 2) / 5 + 1 in
  let m := if mp <? 10 then mp + 3 else mp - 9 in
  let y := yoe + era * 400 + (if m <=? 2 then 1 else 0) in
  (y, m, d).

(** The value of a string of decimal digits ([None] on any other
    character). *)
Fixpoint digits_value (acc : Z) (s : string) : option Z :=
  match s with
  | EmptyString => Some acc
  | String c s' =>
      if is_digit c then digits_value (acc * 10 + digit_val c) s' else None
  end.

(** [new Date(s).getTime()] for the date-only form [YYYY-MM-DD], as the
    ISO reading of V8 gives it: UTC midnight of that day; V8 accepts any
    day up to 31 in every month and lets it roll over.  With a month
    outside 1-12 or a day outside 1-31 the ISO reading fails and the
    result here is [NaN].  V8 then still tries its legacy reading: that
    one fails as well (Invalid Date) unless the year field is 0001-0012,
    where it takes the three numbers as month, day and two-digit year in
    the server's local time zone; those few strings are outside this
    definition.  The server only constructs dates from strings that
    passed [dateRegex], and from the literal ['1995-06-16']. *)
Definition Date_parse (s : string) : number :=
  if regex_test dateRegex s then
    match digits_value 0 (substring 0 4 s),
          digits_value 0 (substring 5 2 s),
          digits_value 0 (substring 8 2 s) with
    | Some y, Some m, Some d =>
        if (1 <=? m) && (m <=? 12) && (1 <=? d) && (d <=? 31)
        then Num (days_from_civil y m d * msPerDay)
        else NaN
    | _, _, _ => NaN
    end
  else NaN.

(** The [n] low decimal digits of [z], most significant first. *)
Fixpoint pad (n : nat) (z : Z) : string :=
  match n with
  | O => EmptyString
  | S k => pad k (z / 10) ++ String (digit_char (z mod 10)) EmptyString
  end.

(** The year of an ISO string: four digits, or the expanded form (a sign
    and six digits) outside 0-9999. *)
Definition year_string (y : Z) : string :=
  if (0 <=? y) && (y <=? 9999) then pad 4 y
  else if y <? 0 then String "-" (pad 6 (- y))
  else String "+" (pad 6 y).

(** [YYYY-MM-DD] *)
Definition date_string (y m d : Z) : string :=
  year_string y ++ "-" ++ pad 2 m ++ "-" ++ pad 2 d.

(** [HH:mm:ss.sss] of the milliseconds since midnight. *)
Definition time_string (ms : Z) : string :=
  pad 2 (ms / 3600000) ++ ":" ++ pad 2 (ms / 60000 mod 60) ++ ":"
    ++ pad 2 (ms / 1000 mod 60) ++ "." ++ pad 3 (ms mod 1000).

(** [toISOString()] of a time value: [YYYY-MM-DDTHH:mm:ss.sssZ]. *)
Definition toISOString (t : Z) : string :=
  let '(y, m, d) := civil_from_days (t / msPerDay) in
  date_string y m d ++ "T" ++ time_string (t mod msPerDay) ++ "Z".

(** [s.split(sep)[0]] for a one-character separator: the part of [s]
    before the first [sep], all of [s] when there is none. *)
Fixpoint split_head (sep : ascii) (s : string) : string :=
  match s with
  | EmptyString => EmptyString
  | String c s' => if Ascii.eqb c sep then EmptyString else String c (split_head sep s')
  end.

End JS.

(* ===================================================================== *)
(** * Data model *)
(* ===================================================================== *)

(** The APOD record the provider returns ([response.data]). *)
Module Apod.
Record t : Type := mk {
  title : string;
  date : string;
  explanation : string;
  url : string;
  media_type : string
}.
End Apod.

(** The configuration object and query parameters of one [axios.get]. *)
Module Request.
Record t : Type := mk {
  api_key : string;
  date : option string;      (* [params.date], set only for a truthy date *)
  timeout : Z;
  family : option Z
}.
End Request.

(** A fulfilled [axios.get]: lower-cased response headers and the body. *)
Module Response.
Record t : Type := mk {
  headers : gmap string string;
  data : Apod.t
}.
End Response.

(** The body of an error response, as far as the code looks into it:
    [data?.msg] is defined only for an object with a [msg] member. *)
Inductive Body : Type :=
| BodyNone                          (* no body: undefined or null *)
| BodyText (text : string)          (* a body that is not an object *)
| BodyObject (msg : option string). (* a JSON object, with or without [msg] *)

Module ErrorResponse.
Record t : Type := mk {
  status : Z;
  data : Body
}.
End ErrorResponse.

(** What a rejected [axios.get] throws. *)
Module AxiosError.
Record t : Type := mk {
  message : string;
  code : option string;
  response : option ErrorResponse.t
}.
End AxiosError.

(** [RATE_LIMIT]: the last counters the provider reported. *)
Record RateLimit : Type := mkRateLimit {
  limit : JS.number;
  remaining : JS.number;
  resetTime : option Z
}.

(** The module-level mutable state of the server. *)
Record Server : Type := mkServer {
  apodCache : gmap string Apod.t;
  RATE_LIMIT : RateLimit
}.

(** What a handler meets outside itself during one request: the clock
    ([new Date()], milliseconds since the epoch), the draw of
    [Math.random()] (as the numerator of a fraction over 2^53), the
    credential, the way the provider answers a request right now, and
    what the other requests served while this one is suspended at its
    [await] do to the module state (the identity when it runs alone). *)
Record Env : Type := mkEnv {
  now : Z;
  random : Z;
  API_KEY : string;
  axios_get : Request.t -> Response.t + AxiosError.t;
  meanwhile : Server -> Server
}.

(** What [res.render] / [res.json] sends back: the HTTP status, the view
    ([None] for [res.json]) and the members of the object passed. *)
Record Reply : Type := mkReply {
  reply_status : Z;
  reply_view : option string;
  reply_data : option Apod.t;
  reply_error : option string;
  reply_isLoading : option bool;
  reply_initialDate : option string
}.

(* ===================================================================== *)
(** * State, exceptions and outbound calls *)
(* ===================================================================== *)

(** The result of running server code: a value or a thrown error, the
    state it leaves, and the outbound requests it issued, in order. *)
Record Step (A : Type) : Type := mkStep {
  outcome : A + AxiosError.t;
  final : Server;
  calls : list Request.t
}.
Arguments mkStep {A} _ _ _.
Arguments outcome {A} _.
Arguments final {A} _.
Arguments calls {A} _.

Definition M (A : Type) : Type := Env -> Server -> Step A.

Definition ret {A} (a : A) : M A :=
  fun _ st => mkStep (inl a) st [].

Definition throw {A} (e : AxiosError.t) : M A :=
  fun _ st => mkStep (inr e) st [].

Definition bind {A B} (m : M A) (k : A -> M B) : M B :=
  fun env st =>
    let r := m env st in
    match outcome r with
    | inl a =>
        let r' := k a env (final r) in
        mkStep (outcome r') (final r') (calls r ++ calls r')
    | inr e => mkStep (inr e) (final r) (calls r)
    end.

(** [try { m } catch (error) { h error }] *)
Definition try_catch {A} (m : M A) (h : AxiosError.t -> M A) : M A :=
  fun env st =>
    let r := m env st in
    match outcome r with
    | inl a => r
    | inr e =>
        let r' := h e env (final r) in
        mkStep (outcome r') (final r') (calls r ++ calls r')
    end.

Definition ask : M Env := fun env st => mkStep (inl env) st [].

Definition get : M Server := fun _ st => mkStep (inl st) st [].

Definition put (st : Server) : M unit := fun _ _ => mkStep (inl tt) st [].

(** [await axios.get(API_URL, config)]: one outbound call; the handler
    is suspended until the answer arrives and resumes on the state the
    other requests left; a rejection is thrown. *)
Definition await_axios_get (req : Request.t) : M Response.t :=
  fun env st => mkStep (axios_get env req) (meanwhile env st) [req].

#[global] Instance M_ret : MRet M := @ret.
#[global] Instance M_bind : MBind M := fun A B k m => bind m k.

(** [apodCache.set(key, value)] *)
Definition apodCache_set (key : string) (value : Apod.t) : M unit :=
  st ← get;
  put (mkServer (<[key := value]> (apodCache st)) (RATE_LIMIT st)).

(* ===================================================================== *)
(** * index.js *)
(* ===================================================================== *)

Module Index.

(** The initial value of [RATE_LIMIT] and of the cache. *)
Definition RATE_LIMIT_init : RateLimit :=
  mkRateLimit (JS.Num 1000) (JS.Num 1000) None.

Definition init : Server := mkServer ∅ RATE_LIMIT_init.

(** [updateRateLimitFromHeaders(headers)], on the snapshot. *)
Definition updateRateLimit (headers : gmap string string) (rl : RateLimit)
    : RateLimit :=
  let rl1 :=
    if JS.truthy_opt (headers !! "x-ratelimit-limit")
    then mkRateLimit (JS.parseInt (default "" (headers !! "x-ratelimit-limit")))
                     (remaining rl) (resetTime rl)
    else rl in
  if JS.truthy_opt (headers !! "x-ratelimit-remaining")
  then mkRateLimit (limit rl1)
                   (JS.parseInt (default "" (headers !! "x-ratelimit-remaining")))
                   (resetTime rl1)
  else rl1.

Definition updateRateLimitFromHeaders (headers : gmap string string) : M unit :=
  st ← get;
  put (mkServer (apodCache st) (updateRateLimit headers (RATE_LIMIT st))).

(** [getRemainingRequests()] *)
Definition getRemainingRequests (st : Server) : JS.number :=
  remaining (RATE_LIMIT st).

(** [new Date().toISOString().split('T')[0]] *)
Definition today (now : Z) : string :=
  JS.split_head "T" (JS.toISOString now).

(** [date || new Date().toISOString().split('T')[0]]: the key the cache
    is consulted under; [None] is the omitted argument ([null]). *)
Definition dateKey (date : option string) (now : Z) : string :=
  if JS.truthy_opt date then default "" date else today now.

(** [params]: the date is passed on only when it is truthy. *)
Definition params_date (date : option string) : option string :=
  if JS.truthy_opt date then date else None.

(** The request [fetchAPOD] issues on a miss. *)
Definition request (env : Env) (date : option string) : Request.t :=
  Request.mk (API_KEY env) (params_date date) 25000 None.

(** [fetchAPOD(date = null)] *)
Definition fetchAPOD (date : option string) : M Apod.t :=
  env ← ask;
  let dateKey := dateKey date (now env) in
  st ← get;
  match apodCache st !! dateKey with
  | Some cached => ret cached
  | None =>
      response ← await_axios_get (request env date);
      updateRateLimitFromHeaders (Response.headers response);;
      apodCache_set (Apod.date (Response.data response))
                    (Response.data response);;
      (if negb (JS.truthy_opt date)
          && negb (String.eqb (Apod.date (Response.data response)) dateKey)
       then apodCache_set dateKey (Response.data response)
       else ret tt);;
      ret (Response.data response)
  end.

(** The three fixed messages of the error helper. *)
Definition MSG_RATE_LIMIT : string :=
  "⚠️ API RATE LIMIT EXCEEDED! Get your FREE personal API key at https://api.nasa.gov/".

Definition MSG_SERVER : string :=
  "⚠️ NASA Servers are experiencing issues. Please try again later.".

Definition MSG_TIMEOUT : string :=
  "⚠️ Connection timed out. NASA servers are slow to respond.".

(** [error.response?.status] *)
Definition response_status (error : AxiosError.t) : option Z :=
  ErrorResponse.status <$> AxiosError.response error.

(** [error.response?.data?.msg] *)
Definition response_msg (error : AxiosError.t) : option string :=
  match AxiosError.response error with
  | Some r =>
      match ErrorResponse.data r with
      | BodyObject msg => msg
      | _ => None
      end
  | None => None
  end.

(** [v === 429] and [v >= 500] on a status that may be undefined. *)
Definition status_is (v : option Z) (n : Z) : bool :=
  match v with Some x => x =? n | None => false end.

Definition status_ge (v : option Z) (n : Z) : bool :=
  match v with Some x => x >=? n | None => false end.

(** [error.code === 'ECONNABORTED'] *)
Definition code_is (v : option string) (c : string) : bool :=
  match v with Some x => String.eqb x c | None => false end.

(** The local [errorMessage] of [handleError] once the [if] chain ran. *)
Definition errorMessage (error : AxiosError.t) (customMessage : string)
    : string :=
  if status_is (response_status error) 429 then MSG_RATE_LIMIT
  else if status_ge (response_status error) 500 then MSG_SERVER
  else if code_is (AxiosError.code error) "ECONNABORTED" then MSG_TIMEOUT
  else customMessage ++ " " ++ AxiosError.message error.

(** [a || b] on strings, [a] possibly undefined. *)
Definition or_else (a : option string) (b : string) : string :=
  match a with
  | Some x => if JS.truthy x then x else b
  | None => b
  end.

(** The [error] member [handleError] hands to the view. *)
Definition displayed (error : AxiosError.t) (customMessage : string)
    : string :=
  or_else (response_msg error) (errorMessage error customMessage).

(** [handleError(res, error, customMessage)]: the reply it renders. *)
Definition handleError (error : AxiosError.t) (customMessage : string)
    : Reply :=
  mkReply 500 (Some "index.ejs") None (Some (displayed error customMessage))
          None None.

(** [res.render("index.ejs", { data, error: null })] *)
Definition render_data (data : Apod.t) : Reply :=
  mkReply 200 (Some "index.ejs") (Some data) None None None.

(** [res.render("index.ejs", { data: null, error })] *)
Definition render_error (error : string) : Reply :=
  mkReply 200 (Some "index.ejs") None (Some error) None None.

(** [app.get("/")] *)
Definition get_root : M Reply :=
  try_catch
    (data ← fetchAPOD None; ret (render_data data))
    (fun error => ret (handleError error "Failed to fetch today's picture.")).

(** The two rejections of the date check. *)
Inductive ValidationError : Type :=
| FORMAT_ERROR
| RANGE_ERROR.

Definition validation_message (e : ValidationError) : string :=
  match e with
  | FORMAT_ERROR => "Invalid date format. Please use YYYY-MM-DD."
  | RANGE_ERROR => "Date must be between June 16, 1995 and today."
  end.

(** The input validation of [app.post("/get-date-picture")]: the regex
    test, then the range test on [Date] values; [None] when both pass. *)
Definition validate (now : Z) (selectedDate : option string)
    : option ValidationError :=
  let s := default "" selectedDate in
  if negb (JS.truthy_opt selectedDate) || negb (JS.regex_test JS.dateRegex s)
  then Some FORMAT_ERROR
  else
    let inputDate := JS.Date_parse s in
    let minDate := JS.Date_parse "1995-06-16" in
    let today := JS.Num now in
    if JS.lt inputDate minDate || JS.gt inputDate today
    then Some RANGE_ERROR
    else None.

(** [app.post("/get-date-picture")] *)
Definition post_get_date_picture (selectedDate : option string) : M Reply :=
  env ← ask;
  match validate (now env) selectedDate with
  | Some e => ret (render_error (validation_message e))
  | None =>
      try_catch
        (data ← fetchAPOD selectedDate; ret (render_data data))
        (fun error =>
           ret (handleError error
                  ("Failed to fetch picture from "
                     ++ default "" selectedDate ++ ".")))
  end.

(** The date string the [/random] handler draws: [None] stands for the
    [RangeError] of [toISOString] on an invalid date.  [Math.random()] is
    the double [random / 2^53]; its product with [timeDiff] is a double
    product, rounded before [Math.floor]. *)
Definition randomDate (now random : Z) : option string :=
  match JS.Date_parse "1995-06-16" with
  | JS.Num firstAPOD =>
      let timeDiff := now - firstAPOD in
      let randomTime := firstAPOD + JS.floor_product random timeDiff in
      Some (JS.split_head "T" (JS.toISOString randomTime))
  | _ => None
  end.

(** [app.get("/random")] *)
Definition get_random : M Reply :=
  try_catch
    (env ← ask;
     match randomDate (now env) (random env) with
     | Some dateString =>
         data ← fetchAPOD (Some dateString); ret (render_data data)
     | None => throw (AxiosError.mk "Invalid time value" None None)
     end)
    (fun error => ret (handleError error "Failed to fetch random picture.")).

End Index.

(* ===================================================================== *)
(** * The variant with JSON endpoints *)
(* ===================================================================== *)

(** This variant of the server file has the same [RATE_LIMIT],
    [updateRateLimitFromHeaders], cache and date check, text for text;
    they are shared with [Index].  Its [fetchAPOD] wraps the call in a
    [try]/[catch] that rethrows, and its error helper only computes the
    message. *)
Module Part001.

(** The request [fetchAPOD] issues on a miss: a longer timeout, IPv4. *)
Definition request (env : Env) (date : option string) : Request.t :=
  Request.mk (API_KEY env) (Index.params_date date) 30000 (Some 4).

(** [fetchAPOD(date = null)] *)
Definition fetchAPOD (date : option string) : M Apod.t :=
  env ← ask;
  let dateKey := Index.dateKey date (now env) in
  st ← get;
  match apodCache st !! dateKey with
  | Some cached => ret cached
  | None =>
      try_catch
        (response ← await_axios_get (request env date);
         Index.updateRateLimitFromHeaders (Response.headers response);;
         apodCache_set (Apod.date (Response.data response))
                       (Response.data response);;
         (if negb (JS.truthy_opt date)
             && negb (String.eqb (Apod.date (Response.data response)) dateKey)
          then apodCache_set dateKey (Response.data response)
          else ret tt);;
         ret (Response.data response))
        (fun error => throw error)
  end.

(** [getErrorMessage(error, customMessage)] *)
Definition getErrorMessage (error : AxiosError.t) (customMessage : string)
    : string :=
  if Index.status_is (Index.response_status error) 429
  then "⚠️ API RATE LIMIT EXCEEDED! Get your FREE personal API key at https://api.nasa.gov/"
  else if Index.status_ge (Index.response_status error) 500
  then "⚠️ NASA Servers are experiencing issues. Please try again later."
  else if Index.code_is (AxiosError.code error) "ECONNABORTED"
  then "⚠️ Connection timed out. NASA servers are slow to respond."
  else customMessage ++ " " ++ AxiosError.message error.

(** [res.json(data)] and [res.status(500).json({ error })] *)
Definition json_data (data : Apod.t) : Reply :=
  mkReply 200 None (Some data) None None None.

Definition json_error (error : string) : Reply :=
  mkReply 500 None None (Some error) None None.

(** [app.get("/api/today")] *)
Definition get_api_today : M Reply :=
  try_catch
    (data ← fetchAPOD None; ret (json_data data))
    (fun error =>
       ret (json_error (getErrorMessage error "Failed to fetch today's picture."))).

(** [app.get("/api/date/:date")] *)
Definition get_api_date (date : string) : M Reply :=
  try_catch
    (data ← fetchAPOD (Some date); ret (json_data data))
    (fun error =>
       ret (json_error
              (getErrorMessage error
                 ("Failed to fetch picture from " ++ date ++ ".")))).

(** [app.post("/get-date-picture")]: the date check, then the page shell. *)
Definition post_get_date_picture (selectedDate : option string) : M Reply :=
  env ← ask;
  match Index.validate (now env) selectedDate with
  | Some e =>
      ret (mkReply 200 (Some "index.ejs") None
             (Some (Index.validation_message e)) (Some false) None)
  | None =>
      ret (mkReply 200 (Some "index.ejs") None None (Some true) selectedDate)
  end.

(** [app.get("/")]: the page shell; the client then asks [/api/today]. *)
Definition get_root : M Reply :=
  ret (mkReply 200 (Some "index.ejs") None None (Some true) None).

(** [app.get("/random")]: draws the date and renders the shell with it;
    there is no [try] here, so the [RangeError] of an invalid date would
    leave the handler. *)
Definition get_random : M Reply :=
  env ← ask;
  match Index.randomDate (now env) (random env) with
  | Some dateString =>
      ret (mkReply 200 (Some "index.ejs") None None (Some true) (Some dateString))
  | None => throw (AxiosError.mk "Invalid time value" None None)
  end.

End Part001.

(* ===================================================================== *)
(** * The first variant (no cache, no date check) *)
(* ===================================================================== *)

Module Part000.

Definition MSG_RATE_LIMIT : string :=
  "⚠️ API RATE LIMIT EXCEEDED! Get your FREE personal API key at https://api.nasa.gov/ "
  ++ "(email only, instant activation, 1000 requests/hour!). "
  ++ "Then add it to your .env file as NASA_API_KEY=your_key_here".

(** The [error] member rendered by the [catch] block of
    [app.post("/get-date-picture")]; [selectedDate] is the form field as
    the template literal prints it. *)
Definition post_catch_error (error : AxiosError.t) (selectedDate : string)
    : string :=
  let errorMessage :=
    if Index.status_is (Index.response_status error) 429
    then MSG_RATE_LIMIT
    else ("Failed to fetch picture from " ++ selectedDate ++ ".")
           ++ " " ++ AxiosError.message error in
  Index.or_else (Index.response_msg error) errorMessage.

(** [RATE_LIMIT] of this variant: fixed quotas, counters of the requests
    made, and the moments (milliseconds since the epoch) at which the
    counters start again. *)
Record RateLimit : Type := mkRateLimit {
  hourly : Z;
  daily : Z;
  hourlyCount : Z;
  dailyCount : Z;
  hourlyResetTime : Z;
  dailyResetTime : Z
}.

(** The value [RATE_LIMIT] is created with; [start] and [start'] are the
    two readings of [Date.now()] in the object literal. *)
Definition RATE_LIMIT_init (start start' : Z) : RateLimit :=
  mkRateLimit 1000 1000 0 0 (start + 60 * 60 * 1000) (start' + 24 * 60 * 60 * 1000).

(** The clock readings of one [updateRateLimit()]: [new Date()] at its
    start and [Date.now()] in each of the two reset branches. *)
Record Clock : Type := mkClock {
  new_Date : Z;
  Date_now_hourly : Z;
  Date_now_daily : Z
}.

(** [updateRateLimit()] *)
Definition updateRateLimit (clock : Clock) (rl : RateLimit) : RateLimit :=
  let now := new_Date clock in
  let rl1 :=
    if now >=? hourlyResetTime rl
    then mkRateLimit (hourly rl) (daily rl) 0 (dailyCount rl)
                     (Date_now_hourly clock + 60 * 60 * 1000) (dailyResetTime rl)
    else rl in
  let rl2 :=
    if now >=? dailyResetTime rl1
    then mkRateLimit (hourly rl1) (daily rl1) (hourlyCount rl1) 0
                     (hourlyResetTime rl1) (Date_now_daily clock + 24 * 60 * 60 * 1000)
    else rl1 in
  mkRateLimit (hourly rl2) (daily rl2) (hourlyCount rl2 + 1) (dailyCount rl2 + 1)
              (hourlyResetTime rl2) (dailyResetTime rl2).

(** [getRemainingRequests()]: the pair [(hourly, daily)]. *)
Definition getRemainingRequests (rl : RateLimit) : Z * Z :=
  (Z.max 0 (hourly rl - hourlyCount rl), Z.max 0 (daily rl - dailyCount rl)).

(** What the handlers of this variant render. *)
Record Reply : Type := mkReply {
  reply_status : Z;
  reply_data : option Apod.t;
  reply_rateLimit : Z * Z;
  reply_error : option string
}.

(** The result of one handler: the reply, the counters it leaves, and
    the outbound requests it issued. *)
Record Step : Type := mkStep {
  reply : Reply;
  rate : RateLimit;
  calls : list Request.t
}.

(** The message of the [catch] blocks of [app.get("/")] and
    [app.get("/random")]: no look into the error body. *)
Definition catch_error (error : AxiosError.t) (customMessage : string)
    : string :=
  if Index.status_is (Index.response_status error) 429
  then MSG_RATE_LIMIT
  else customMessage ++ " " ++ AxiosError.message error.

(** The common frame of the three handlers: count the request, issue the
    call (no timeout is configured: axios waits without limit), and
    render with the counters as they are when the answer has arrived;
    [others] is what the requests served during the wait did to them. *)
Definition serve (clock : Clock) (env : Env) (others : RateLimit -> RateLimit)
    (params_date : option string) (on_error : AxiosError.t -> string)
    (rl : RateLimit) : Step :=
  let counted := updateRateLimit clock rl in
  let req := Request.mk (API_KEY env) params_date 0 None in
  let resumed := others counted in
  match axios_get env req with
  | inl response =>
      mkStep (mkReply 200 (Some (Response.data response))
                      (getRemainingRequests resumed) None)
             resumed [req]
  | inr error =>
      mkStep (mkReply 500 None (getRemainingRequests resumed)
                      (Some (on_error error)))
             resumed [req]
  end.

(** [app.get("/")] *)
Definition get_root (clock : Clock) (env : Env)
    (others : RateLimit -> RateLimit) (rl : RateLimit) : Step :=
  serve clock env others None
        (fun error => catch_error error "Failed to fetch today's picture.") rl.

(** [app.post("/get-date-picture")]: the form field goes to the provider
    as it came ([None] when the field is missing). *)
Definition post_get_date_picture (clock : Clock) (env : Env)
    (others : RateLimit -> RateLimit) (selectedDate : option string)
    (rl : RateLimit) : Step :=
  serve clock env others selectedDate
        (fun error => post_catch_error error (default "undefined" selectedDate))
        rl.

(** [app.get("/random")]: the request is counted before the date is
    drawn; a [RangeError] of [toISOString] is caught like a failed
    call, without any request having been sent. *)
Definition get_random (clock : Clock) (env : Env)
    (others : RateLimit -> RateLimit) (rl : RateLimit) : Step :=
  match Index.randomDate (now env) (random env) with
  | Some dateString =>
      serve clock env others (Some dateString)
            (fun error => catch_error error "Failed to fetch random picture.") rl
  | None =>
      let counted := updateRateLimit clock rl in
      mkStep (mkReply 500 None (getRemainingRequests counted)
                (Some (catch_error (AxiosError.mk "Invalid time value" None None)
                         "Failed to fetch random picture.")))
             counted []
  end.

(** The counters after a list of [updateRateLimit()] calls, one clock
    per call, oldest first. *)
Definition updates (clocks : list Clock) (rl : RateLimit) : RateLimit :=
  fold_left (fun acc clock => updateRateLimit clock acc) clocks rl.

End Part000.

(* ===================================================================== *)
(** * Auxiliary definitions for the proofs *)
(* ===================================================================== *)

(** The cache after a fulfilled call: the record goes under the date the
    provider reports and, for an omitted date, also under the key that
    was looked up when the two differ. *)
Definition stored (date : option string) (key : string) (data : Apod.t)
    (cache : gmap string Apod.t) : gmap string Apod.t :=
  if negb (JS.truthy_opt date) && negb (String.eqb (Apod.date data) key)
  then <[key := data]> (<[Apod.date data := data]> cache)
  else <[Apod.date data := data]> cache.

(** The state after the writes of a fulfilled call: the snapshot follows
    the headers, the cache receives the record. *)
Definition written (date : option string) (key : string) (resp : Response.t)
    (st : Server) : Server :=
  mkServer (stored date key (Response.data resp) (apodCache st))
           (Index.updateRateLimit (Response.headers resp) (RATE_LIMIT st)).

(** A four-digit year, a two-digit month and day, written out. *)
Definition iso_chars (a b c d e f g h : ascii) : string :=
  String a (String b (String c (String d (String "-"
    (String e (String f (String "-" (String g (String h ""))))))))).

(** The shape the pattern describes: four digits, a hyphen, two digits,
    a hyphen, two digits, and nothing else. *)
Definition date_shaped (s : string) : Prop :=
  exists a b c d e f g h : ascii,
    s = iso_chars a b c d e f g h
    /\ JS.is_digit a = true /\ JS.is_digit b = true /\ JS.is_digit c = true
    /\ JS.is_digit d = true /\ JS.is_digit e = true /\ JS.is_digit f = true
    /\ JS.is_digit g = true /\ JS.is_digit h = true.

(** The three shapes a reply of [index.js] can have: the picture, an
    input rejected by the date check, a failed fetch. *)
Definition shows_picture (r : Reply) : Prop :=
  reply_status r = 200 /\ is_Some (reply_data r) /\ reply_error r = None.

Definition shows_rejection (r : Reply) : Prop :=
  reply_status r = 200 /\ reply_data r = None
  /\ exists e, reply_error r = Some (Index.validation_message e).

Definition shows_failure (r : Reply) : Prop :=
  reply_status r = 500 /\ reply_data r = None /\ is_Some (reply_error r).

(** ** Sample values *)

Definition apod_jan1 : Apod.t :=
  Apod.mk "Comet over the ridge" "2024-01-01" "A comet."
          "https://apod.nasa.gov/apod/image/comet.jpg" "image".

(** The provider's record for the same day after an edit. *)
Definition apod_jan1_revised : Apod.t :=
  Apod.mk "Comet over the ridge" "2024-01-01" "A comet, seen at dawn."
          "https://apod.nasa.gov/apod/image/comet.jpg" "image".

Definition headers_1000_950 : gmap string string :=
  {[ "x-ratelimit-limit" := "1000"; "x-ratelimit-remaining" := "950" ]}.

Definition apod_jan2 : Apod.t :=
  Apod.mk "Ice halo" "2024-01-02" "A halo around the Moon."
          "https://apod.nasa.gov/apod/image/halo.jpg" "image".

(** 2024-01-02T12:00:00Z *)
Definition noon_jan2 : Z := 1704196800000.

(** 03:00 UTC on 2 and on 3 January 2024: the provider, some hours
    behind UTC, still shows the picture of the day before. *)
Definition early_jan2 : Env :=
  mkEnv 1704164400000 0 "DEMO_KEY"
        (fun _ => inl (Response.mk ∅ apod_jan1)) (fun st => st).

Definition early_jan3 : Env :=
  mkEnv 1704250800000 0 "DEMO_KEY"
        (fun _ => inl (Response.mk ∅ apod_jan2)) (fun st => st).

(** A provider that answers every request with the same response, and
    one that fails every request with the same error. *)
Definition answers (resp : Response.t) : Request.t -> Response.t + AxiosError.t :=
  fun _ => inl resp.

Definition fails (e : AxiosError.t) : Request.t -> Response.t + AxiosError.t :=
  fun _ => inr e.

Definition env_jan2 (net : Request.t -> Response.t + AxiosError.t) : Env :=
  mkEnv noon_jan2 0 "DEMO_KEY" net (fun st => st).

(** A server that has the record of 2024-01-01 in its cache. *)
Definition st_jan1 : Server :=
  mkServer {[ "2024-01-01" := apod_jan1 ]} Index.RATE_LIMIT_init.

Definition err_timeout : AxiosError.t :=
  AxiosError.mk "timeout of 25000ms exceeded" (Some "ECONNABORTED") None.

Definition err_status (status : Z) (body : Body) : AxiosError.t :=
  AxiosError.mk ("Request failed with status code " ++ JS.pad 3 status)
                (Some "ERR_BAD_RESPONSE")
                (Some (ErrorResponse.mk status body)).

(** No character of the string is [c]. *)
Fixpoint lacks (c : ascii) (s : string) : bool :=
  match s with
  | EmptyString => true
  | String x s' => negb (Ascii.eqb x c) && lacks c s'
  end.

(* ===================================================================== *)
(** * Calendar arithmetic and ISO date strings *)
(* ===================================================================== *)

#[local] Arguments Index.today : simpl never.
#[local] Arguments Index.dateKey : simpl never.
#[local] Arguments JS.Date_parse : simpl never.
#[local] Arguments JS.toISOString : simpl never.
#[local] Arguments JS.parseInt : simpl never.
#[local] Arguments JS.regex_test : simpl never.

Lemma civil_roundtrip (n y m d : Z) :
  JS.civil_from_days n = (y, m, d) ->
  JS.days_from_civil y m d = n /\ 1 <= m <= 12 /\ 1 <= d <= 31
  /\ (-719468 <= n < 2932897 -> 0 <= y <= 9999).
Proof.
  unfold JS.civil_from_days, JS.days_from_civil. cbv zeta.
  intros Heq. injection Heq as Hy Hm Hd. subst y m d.
  set (z := n + 719468).
  set (era := z / 146097).
  set (doe := z - era * 146097).
  set (yoe := (doe - doe / 1460 + doe / 36524 - doe / 146096) / 365).
  set (doy := doe - (365 * yoe + yoe / 4 - yoe / 100)).
  set (mp := (5 * doy + 2) / 153).
  assert (Hdoe : 0 <= doe < 146097)
    by (subst doe era; Z.div_mod_to_equations; lia).
  assert (Hb : 0 <= yoe <= 399 /\ 0 <= doy <= 365 /\ 0 <= mp <= 11
               /\ 1 <= doy - (153 * mp + 2) / 5 + 1 <= 31
               /\ (mp < 10 \/ yoe <= 398 \/ 146037 <= doe)).
  { clearbody doe. subst yoe doy mp. clear -Hdoe. Z.div_mod_to_equations. lia. }
  destruct Hb as (Hyoe & Hdoy & Hmp & Hday & Hlast).
  assert (Hn : n = era * 146097 + doe - 719468) by (subst doe z; lia).
  assert (Hera : forall c, (yoe + era * 400 + c - c) / 400 = era).
  { intros c. clear -Hyoe. clearbody yoe era. Z.div_mod_to_equations. lia. }
  assert (Hinv : yoe * 365 + yoe / 4 - yoe / 100 + doy = doe)
    by (subst doy; lia).
  assert (Hmpd : mp = (5 * doy + 2) / 153) by reflexivity.
  clearbody mp doy yoe doe era z.
  destruct (mp <? 10) eqn:Hlt.
  - apply Z.ltb_lt in Hlt.
    replace (mp + 3 <=? 2) with false by (symmetry; apply Z.leb_gt; lia).
    replace (mp + 3 >? 2) with true by (symmetry; apply Z.gtb_gt; lia).
    replace (yoe + era * 400 + 0) with (yoe + era * 400 + 0 - 0) by lia.
    rewrite Hera.
    split; [|lia].
    replace (mp + 3 - 3) with mp by lia.
    replace (yoe + era * 400 + 0 - 0 - era * 400) with yoe by lia.
    lia.
  - apply Z.ltb_ge in Hlt.
    replace (mp - 9 <=? 2) with true by (symmetry; apply Z.leb_le; lia).
    replace (mp - 9 >? 2) with false by (symmetry; rewrite Z.gtb_ltb; apply Z.ltb_ge; lia).
    rewrite Hera.
    split; [|lia].
    replace (mp - 9 + 9) with mp by lia.
    replace (yoe + era * 400 + 1 - 1 - era * 400) with yoe by lia.
    lia.
Qed.

(** ** Digits and padded numbers *)

Lemma digit_cases (k : Z) :
  0 <= k <= 9 ->
  k = 0 \/ k = 1 \/ k = 2 \/ k = 3 \/ k = 4 \/ k = 5 \/ k = 6 \/ k = 7
  \/ k = 8 \/ k = 9.
Proof. lia. Qed.

Ltac each_digit H :=
  apply digit_cases in H;
  repeat (destruct H as [H | H]; [subst; reflexivity |]); subst; reflexivity.

Lemma is_digit_digit_char (k : Z) :
  0 <= k <= 9 -> JS.is_digit (JS.digit_char k) = true.
Proof. intros H. each_digit H. Qed.

Lemma digit_val_digit_char (k : Z) :
  0 <= k <= 9 -> JS.digit_val (JS.digit_char k) = k.
Proof. intros H. each_digit H. Qed.

Lemma digit_char_not_T (k : Z) :
  0 <= k <= 9 -> Ascii.eqb (JS.digit_char k) "T" = false.
Proof. intros H. each_digit H. Qed.

Lemma lacks_app (c : ascii) (a b : string) :
  lacks c (a ++ b) = lacks c a && lacks c b.
Proof.
  induction a as [|x a IH]; simpl; [reflexivity|].
  rewrite IH. apply andb_assoc.
Qed.

Lemma split_head_app (sep : ascii) (a b : string) :
  lacks sep a = true -> JS.split_head sep (a ++ String sep b) = a.
Proof.
  induction a as [|x a IH]; simpl.
  - intros _. rewrite Ascii.eqb_refl. reflexivity.
  - intros H. apply andb_true_iff in H as [Hx Ha].
    apply negb_true_iff in Hx. rewrite Hx, IH by assumption. reflexivity.
Qed.

Lemma mod10_digit (z : Z) : 0 <= z mod 10 <= 9.
Proof. pose proof (Z.mod_pos_bound z 10). lia. Qed.

Lemma lacks_T_pad (n : nat) : forall z, lacks "T" (JS.pad n z) = true.
Proof.
  induction n as [|k IH]; intros z; [reflexivity|].
  change (JS.pad (S k) z)
    with (JS.pad k (z / 10) ++ String (JS.digit_char (z mod 10)) "").
  rewrite lacks_app, IH.
  change (lacks "T" (String (JS.digit_char (z mod 10)) ""))
    with (negb (Ascii.eqb (JS.digit_char (z mod 10)) "T") && true).
  rewrite digit_char_not_T by apply mod10_digit. reflexivity.
Qed.

Lemma lacks_T_date_string (y m d : Z) : lacks "T" (JS.date_string y m d) = true.
Proof.
  unfold JS.date_string, JS.year_string.
  rewrite !lacks_app.
  rewrite !lacks_T_pad.
  destruct ((0 <=? y) && (y <=? 9999)); [rewrite lacks_T_pad; reflexivity|].
  destruct (y <? 0);
    (change (lacks "T" (String ?c ?s)) with (negb (Ascii.eqb c "T") && lacks "T" s));
    cbn [lacks]; rewrite lacks_T_pad; reflexivity.
Qed.

Lemma today_date_string (t y m d : Z) :
  JS.civil_from_days (t / JS.msPerDay) = (y, m, d) ->
  Index.today t = JS.date_string y m d.
Proof.
  intros Hc. unfold Index.today, JS.toISOString. rewrite Hc.
  apply (split_head_app "T" (JS.date_string y m d)).
  apply lacks_T_date_string.
Qed.

Lemma append_nonempty (a b : string) : b <> "" -> a ++ b <> "".
Proof. destruct a; simpl; [auto | discriminate]. Qed.

Lemma today_nonempty (t : Z) : Index.today t <> "".
Proof.
  destruct (JS.civil_from_days (t / JS.msPerDay)) as [[y m] d] eqn:Hc.
  rewrite (today_date_string t y m d Hc).
  unfold JS.date_string. apply append_nonempty. discriminate.
Qed.

Lemma date_string_chars (y m d : Z) :
  0 <= y <= 9999 ->
  JS.date_string y m d =
    iso_chars (JS.digit_char (y / 10 / 10 / 10 mod 10))
              (JS.digit_char (y / 10 / 10 mod 10))
              (JS.digit_char (y / 10 mod 10))
              (JS.digit_char (y mod 10))
              (JS.digit_char (m / 10 mod 10)) (JS.digit_char (m mod 10))
              (JS.digit_char (d / 10 mod 10)) (JS.digit_char (d mod 10)).
Proof.
  intros Hy. unfold JS.date_string, JS.year_string.
  replace ((0 <=? y) && (y <=? 9999)) with true
    by (symmetry; apply andb_true_iff; split; apply Z.leb_le; lia).
  reflexivity.
Qed.

Lemma regex_iso_chars (a b c d e f g h : ascii) :
  JS.is_digit a = true -> JS.is_digit b = true -> JS.is_digit c = true ->
  JS.is_digit d = true -> JS.is_digit e = true -> JS.is_digit f = true ->
  JS.is_digit g = true -> JS.is_digit h = true ->
  JS.regex_test JS.dateRegex (iso_chars a b c d e f g h) = true.
Proof.
  intros Ha Hb Hc Hd He Hf Hg Hh.
  cbv [JS.regex_test JS.dateRegex iso_chars JS.match_anchored JS.atom_matches].
  rewrite Ha, Hb, Hc, Hd, He, Hf, Hg, Hh. reflexivity.
Qed.

Lemma Date_parse_iso_chars (a b c d e f g h : ascii) :
  JS.is_digit a = true -> JS.is_digit b = true -> JS.is_digit c = true ->
  JS.is_digit d = true -> JS.is_digit e = true -> JS.is_digit f = true ->
  JS.is_digit g = true -> JS.is_digit h = true ->
  let y := (((0 * 10 + JS.digit_val a) * 10 + JS.digit_val b) * 10
            + JS.digit_val c) * 10 + JS.digit_val d in
  let m := (0 * 10 + JS.digit_val e) * 10 + JS.digit_val f in
  let dd := (0 * 10 + JS.digit_val g) * 10 + JS.digit_val h in
  JS.Date_parse (iso_chars a b c d e f g h) =
    if (1 <=? m) && (m <=? 12) && (1 <=? dd) && (dd <=? 31)
    then JS.Num (JS.days_from_civil y m dd * JS.msPerDay)
    else JS.NaN.
Proof.
  intros Ha Hb Hc Hd He Hf Hg Hh y m dd.
  unfold JS.Date_parse.
  rewrite regex_iso_chars by assumption.
  cbv [iso_chars substring JS.digits_value].
  rewrite Ha, Hb, Hc, Hd, He, Hf, Hg, Hh. reflexivity.
Qed.

Lemma date_string_parse (y m d : Z) :
  0 <= y <= 9999 -> 1 <= m <= 12 -> 1 <= d <= 31 ->
  JS.regex_test JS.dateRegex (JS.date_string y m d) = true
  /\ JS.Date_parse (JS.date_string y m d)
     = JS.Num (JS.days_from_civil y m d * JS.msPerDay).
Proof.
  intros Hy Hm Hd. rewrite date_string_chars by assumption.
  split.
  - apply regex_iso_chars; apply is_digit_digit_char, mod10_digit.
  - rewrite Date_parse_iso_chars
      by (apply is_digit_digit_char, mod10_digit).
    rewrite !digit_val_digit_char by apply mod10_digit.
    replace ((((0 * 10 + y / 10 / 10 / 10 mod 10) * 10 + y / 10 / 10 mod 10) * 10
              + y / 10 mod 10) * 10 + y mod 10) with y
      by (Z.div_mod_to_equations; lia).
    replace ((0 * 10 + m / 10 mod 10) * 10 + m mod 10) with m
      by (Z.div_mod_to_equations; lia).
    replace ((0 * 10 + d / 10 mod 10) * 10 + d mod 10) with d
      by (Z.div_mod_to_equations; lia).
    replace ((1 <=? m) && (m <=? 12) && (1 <=? d) && (d <=? 31)) with true;
      [reflexivity|].
    symmetry. rewrite !andb_true_iff, !Z.leb_le. lia.
Qed.

(** The date string of a time value between 0000 and 9999 matches the
    pattern and parses back to the midnight that starts its day. *)
Lemma today_parse (t : Z) :
  -62162035200000 <= t < 253402300800000 ->
  JS.regex_test JS.dateRegex (Index.today t) = true
  /\ JS.Date_parse (Index.today t) = JS.Num (t / JS.msPerDay * JS.msPerDay).
Proof.
  intros Ht.
  destruct (JS.civil_from_days (t / JS.msPerDay)) as [[y m] d] eqn:Hc.
  rewrite (today_date_string t y m d Hc).
  destruct (civil_roundtrip _ _ _ _ Hc) as (Hrt & Hm & Hd & Hy).
  assert (Hday : -719468 <= t / JS.msPerDay < 2932897)
    by (unfold JS.msPerDay; Z.div_mod_to_equations; lia).
  destruct (date_string_parse y m d (Hy Hday) Hm Hd) as [Hre Hp].
  split; [assumption|]. rewrite Hp, Hrt. reflexivity.
Qed.

(* ===================================================================== *)
(** * The fetch helper, one invocation at a time *)
(* ===================================================================== *)

Ltac run :=
  cbv beta iota zeta delta
    [Index.fetchAPOD Part001.fetchAPOD Index.updateRateLimitFromHeaders
     apodCache_set await_axios_get try_catch mbind M_bind mret M_ret
     bind ret throw ask get put outcome final calls app].

Ltac run_handler :=
  cbv beta iota zeta delta
    [Index.post_get_date_picture Index.get_root Index.get_random
     try_catch mbind M_bind mret M_ret bind ret throw ask
     outcome final calls app].

(** The state a fulfilled call leaves: the writes of [fetchAPOD] applied
    to the state the invocation resumed on. *)
Lemma written_cache (date : option string) (key : string) (resp : Response.t)
    (st : Server) :
  apodCache (written date key resp st)
    = stored date key (Response.data resp) (apodCache st).
Proof. reflexivity. Qed.

Lemma written_RATE_LIMIT (date : option string) (key : string)
    (resp : Response.t) (st : Server) :
  RATE_LIMIT (written date key resp st)
    = Index.updateRateLimit (Response.headers resp) (RATE_LIMIT st).
Proof. reflexivity. Qed.

Section FetchRuns.

Variables (env : Env) (st : Server) (date : option string).

Let key : string := Index.dateKey date (now env).

Lemma Index_fetch_hit (r : Apod.t) :
  apodCache st !! key = Some r ->
  Index.fetchAPOD date env st = mkStep (inl r) st [].
Proof. intros Hhit. unfold key in *. run. rewrite Hhit. reflexivity. Qed.

Lemma Index_fetch_rejected (e : AxiosError.t) :
  apodCache st !! key = None ->
  axios_get env (Index.request env date) = inr e ->
  Index.fetchAPOD date env st
    = mkStep (inr e) (meanwhile env st) [Index.request env date].
Proof.
  intros Hmiss Hnet. unfold key in *. run. rewrite Hmiss. run. rewrite Hnet.
  reflexivity.
Qed.

Lemma Index_fetch_fulfilled (resp : Response.t) :
  apodCache st !! key = None ->
  axios_get env (Index.request env date) = inl resp ->
  Index.fetchAPOD date env st =
    mkStep (inl (Response.data resp))
      (written date key resp (meanwhile env st))
      [Index.request env date].
Proof.
  intros Hmiss Hnet. unfold key in *. run. rewrite Hmiss. run. rewrite Hnet.
  unfold written, stored.
  destruct (negb (JS.truthy_opt date)
            && negb (String.eqb (Apod.date (Response.data resp))
                       (Index.dateKey date (now env))));
    destruct (meanwhile env st); run;
    cbv beta iota delta [apodCache RATE_LIMIT]; reflexivity.
Qed.

Lemma Part001_fetch_hit (r : Apod.t) :
  apodCache st !! key = Some r ->
  Part001.fetchAPOD date env st = mkStep (inl r) st [].
Proof. intros Hhit. unfold key in *. run. rewrite Hhit. reflexivity. Qed.

Lemma Part001_fetch_rejected (e : AxiosError.t) :
  apodCache st !! key = None ->
  axios_get env (Part001.request env date) = inr e ->
  Part001.fetchAPOD date env st
    = mkStep (inr e) (meanwhile env st) [Part001.request env date].
Proof.
  intros Hmiss Hnet. unfold key in *. run. rewrite Hmiss. run. rewrite Hnet.
  reflexivity.
Qed.

Lemma Part001_fetch_fulfilled (resp : Response.t) :
  apodCache st !! key = None ->
  axios_get env (Part001.request env date) = inl resp ->
  Part001.fetchAPOD date env st =
    mkStep (inl (Response.data resp))
      (written date key resp (meanwhile env st))
      [Part001.request env date].
Proof.
  intros Hmiss Hnet. unfold key in *. run. rewrite Hmiss. run. rewrite Hnet.
  unfold written, stored.
  destruct (negb (JS.truthy_opt date)
            && negb (String.eqb (Apod.date (Response.data resp))
                       (Index.dateKey date (now env))));
    destruct (meanwhile env st); run;
    cbv beta iota delta [apodCache RATE_LIMIT]; reflexivity.
Qed.

(** Every run of [fetchAPOD] is one of the three: a hit, a miss with a
    rejected call, a miss with a fulfilled call. *)
Lemma Index_fetch_cases :
  (exists r, apodCache st !! key = Some r
             /\ Index.fetchAPOD date env st = mkStep (inl r) st [])
  \/ (exists e, apodCache st !! key = None
        /\ axios_get env (Index.request env date) = inr e
        /\ Index.fetchAPOD date env st
           = mkStep (inr e) (meanwhile env st) [Index.request env date])
  \/ (exists resp, apodCache st !! key = None
        /\ axios_get env (Index.request env date) = inl resp
        /\ Index.fetchAPOD date env st =
             mkStep (inl (Response.data resp))
               (written date key resp (meanwhile env st))
               [Index.request env date]).
Proof.
  destruct (apodCache st !! key) as [r|] eqn:Hc.
  - left. exists r. split; [reflexivity|]. apply Index_fetch_hit. exact Hc.
  - right. destruct (axios_get env (Index.request env date)) as [resp|e] eqn:Hnet.
    + right. exists resp. repeat split. apply Index_fetch_fulfilled; assumption.
    + left. exists e. repeat split. apply Index_fetch_rejected; assumption.
Qed.

Lemma Part001_fetch_cases :
  (exists r, apodCache st !! key = Some r
             /\ Part001.fetchAPOD date env st = mkStep (inl r) st [])
  \/ (exists e, apodCache st !! key = None
        /\ axios_get env (Part001.request env date) = inr e
        /\ Part001.fetchAPOD date env st
           = mkStep (inr e) (meanwhile env st) [Part001.request env date])
  \/ (exists resp, apodCache st !! key = None
        /\ axios_get env (Part001.request env date) = inl resp
        /\ Part001.fetchAPOD date env st =
             mkStep (inl (Response.data resp))
               (written date key resp (meanwhile env st))
               [Part001.request env date]).
Proof.
  destruct (apodCache st !! key) as [r|] eqn:Hc.
  - left. exists r. split; [reflexivity|]. apply Part001_fetch_hit. exact Hc.
  - right. destruct (axios_get env (Part001.request env date)) as [resp|e] eqn:Hnet.
    + right. exists resp. repeat split. apply Part001_fetch_fulfilled; assumption.
    + left. exists e. repeat split. apply Part001_fetch_rejected; assumption.
Qed.

End FetchRuns.

Lemma dateKey_given (k : string) (clock : Z) :
  k <> "" -> Index.dateKey (Some k) clock = k.
Proof. intros Hk. destruct k; [congruence | reflexivity]. Qed.

(** C1: a fetch for a date key that is in the cache returns the stored
    record, issues no outbound call and leaves the cache and the
    rate-limit snapshot as they were; so in both variants of the helper.
    (A date key is a non-empty string: the empty string is falsy and
    stands for the omitted argument.) *)
Theorem cache_hit_is_pure_read (env : Env) (st : Server) (k : string) (r : Apod.t) :
  k <> "" ->
  apodCache st !! k = Some r ->
  Index.fetchAPOD (Some k) env st = mkStep (inl r) st []
  /\ Part001.fetchAPOD (Some k) env st = mkStep (inl r) st [].
Proof.
  intros Hk Hhit. split.
  - apply Index_fetch_hit. rewrite dateKey_given; assumption.
  - apply Part001_fetch_hit. rewrite dateKey_given; assumption.
Qed.

Lemma cache_hit_is_pure_read_witness :
  "2024-01-01" <> ""
  /\ apodCache st_jan1 !! "2024-01-01" = Some apod_jan1
  /\ Index.fetchAPOD (Some "2024-01-01") (env_jan2 (fails err_timeout)) st_jan1
     = mkStep (inl apod_jan1) st_jan1 []
  /\ Part001.fetchAPOD (Some "2024-01-01") (env_jan2 (fails err_timeout)) st_jan1
     = mkStep (inl apod_jan1) st_jan1 [].
Proof.
  split; [discriminate|]. split; [reflexivity|].
  apply (cache_hit_is_pure_read (env_jan2 (fails err_timeout)) st_jan1
           "2024-01-01" apod_jan1); [discriminate | reflexivity].
Defined.

(** The same holds for the omitted argument when today's key is cached. *)
Lemma cache_hit_today (env : Env) (st : Server) (r : Apod.t) :
  apodCache st !! Index.today (now env) = Some r ->
  Index.fetchAPOD None env st = mkStep (inl r) st []
  /\ Part001.fetchAPOD None env st = mkStep (inl r) st [].
Proof.
  intros Hhit. split.
  - apply Index_fetch_hit. assumption.
  - apply Part001_fetch_hit. assumption.
Qed.

(** ** Storing a response *)

Lemma stored_lookup (date : option string) (key : string) (data : Apod.t)
    (cache : gmap string Apod.t) (k : string) :
  stored date key data cache !! k =
    if decide (k = Apod.date data) then Some data
    else if decide (k = key)
         then (if negb (JS.truthy_opt date) then Some data else cache !! k)
         else cache !! k.
Proof.
  unfold stored.
  destruct (negb (JS.truthy_opt date)); simpl.
  - destruct (String.eqb (Apod.date data) key) eqn:Heq; simpl.
    + apply String.eqb_eq in Heq. subst key.
      destruct (decide (k = Apod.date data)) as [->|Hne].
      * apply lookup_insert_eq.
      * rewrite lookup_insert_ne by congruence. reflexivity.
    + destruct (decide (k = Apod.date data)) as [->|Hne].
      * apply String.eqb_neq in Heq.
        rewrite lookup_insert_ne by congruence. apply lookup_insert_eq.
      * destruct (decide (k = key)) as [->|Hne'].
        -- apply lookup_insert_eq.
        -- rewrite !lookup_insert_ne by congruence. reflexivity.
  - destruct (decide (k = Apod.date data)) as [->|Hne].
    + apply lookup_insert_eq.
    + rewrite lookup_insert_ne by congruence.
      destruct (decide (k = key)); reflexivity.
Qed.

Lemma stored_today (key : string) (data : Apod.t) (cache : gmap string Apod.t) :
  stored None key data cache !! key = Some data
  /\ stored None key data cache !! Apod.date data = Some data.
Proof.
  rewrite !stored_lookup. simpl.
  destruct (decide (key = Apod.date data)); repeat case_decide; try congruence;
    auto.
Qed.

(** C4: a fetch with the date omitted, answered with a record whose date
    is not the local today string, stores the record under the
    provider's date and under the local key; any later fetch for the
    local key, given or omitted, is a cache hit: it returns that record
    without an outbound call and without touching the state. *)
Theorem today_stored_under_both_keys (env : Env) (st : Server) (resp : Response.t) :
  apodCache st !! Index.today (now env) = None ->
  axios_get env (Index.request env None) = inl resp ->
  Apod.date (Response.data resp) <> Index.today (now env) ->
  let st' := final (Index.fetchAPOD None env st) in
  apodCache st' !! Apod.date (Response.data resp) = Some (Response.data resp)
  /\ apodCache st' !! Index.today (now env) = Some (Response.data resp)
  /\ forall env' : Env,
       Index.fetchAPOD (Some (Index.today (now env))) env' st'
         = mkStep (inl (Response.data resp)) st' []
       /\ (Index.today (now env') = Index.today (now env) ->
           Index.fetchAPOD None env' st'
             = mkStep (inl (Response.data resp)) st' []).
Proof.
  intros Hmiss Hnet Hdiff st'.
  assert (Hst : apodCache st' =
            stored None (Index.today (now env)) (Response.data resp)
              (apodCache (meanwhile env st))).
  { subst st'. rewrite (Index_fetch_fulfilled env st None resp Hmiss Hnet).
    reflexivity. }
  destruct (stored_today (Index.today (now env)) (Response.data resp)
              (apodCache (meanwhile env st))) as [Hkey Hprov].
  assert (Hk : apodCache st' !! Index.today (now env) = Some (Response.data resp))
    by (rewrite Hst; exact Hkey).
  split; [rewrite Hst; exact Hprov|]. split; [exact Hk|].
  intros env'. split.
  - apply Index_fetch_hit.
    rewrite dateKey_given by apply today_nonempty. exact Hk.
  - intros Hsame. apply Index_fetch_hit.
    change (Index.dateKey None (now env')) with (Index.today (now env')).
    rewrite Hsame. exact Hk.
Qed.

Lemma today_stored_under_both_keys_witness :
  let env := env_jan2 (answers (Response.mk headers_1000_950 apod_jan1)) in
  let st' := final (Index.fetchAPOD None env Index.init) in
  Index.today (now env) = "2024-01-02"
  /\ apodCache st' !! "2024-01-01" = Some apod_jan1
  /\ apodCache st' !! "2024-01-02" = Some apod_jan1
  /\ Index.fetchAPOD (Some "2024-01-02") (env_jan2 (fails err_timeout)) st'
     = mkStep (inl apod_jan1) st' [].
Proof.
  intros env st'.
  assert (Hmiss : apodCache Index.init !! Index.today (now env) = None)
    by (vm_compute; reflexivity).
  assert (Hnet : axios_get env (Index.request env None)
                 = inl (Response.mk headers_1000_950 apod_jan1))
    by reflexivity.
  assert (Hdiff : Apod.date (Response.data (Response.mk headers_1000_950 apod_jan1))
                  <> Index.today (now env))
    by (vm_compute; discriminate).
  destruct (today_stored_under_both_keys env Index.init
              (Response.mk headers_1000_950 apod_jan1) Hmiss Hnet Hdiff)
    as (Hprov & Hkey & Hlater).
  split; [vm_compute; reflexivity|].
  split; [exact Hprov|]. split; [exact Hkey|].
  exact (proj1 (Hlater (env_jan2 (fails err_timeout)))).
Defined.

(** The variant with JSON endpoints stores the record the same way. *)
Lemma Part001_today_stored (env : Env) (st : Server) (resp : Response.t) :
  apodCache st !! Index.today (now env) = None ->
  axios_get env (Part001.request env None) = inl resp ->
  let st' := final (Part001.fetchAPOD None env st) in
  apodCache st' !! Apod.date (Response.data resp) = Some (Response.data resp)
  /\ apodCache st' !! Index.today (now env) = Some (Response.data resp).
Proof.
  intros Hmiss Hnet st'. subst st'.
  rewrite (Part001_fetch_fulfilled env st None resp Hmiss Hnet).
  destruct (stored_today (Index.today (now env)) (Response.data resp)
              (apodCache (meanwhile env st))) as [Hkey Hprov].
  split; assumption.
Qed.

(** ** The rate-limit snapshot *)

Lemma updateRateLimit_limit (headers : gmap string string) (rl : RateLimit) :
  limit (Index.updateRateLimit headers rl) =
    if JS.truthy_opt (headers !! "x-ratelimit-limit")
    then JS.parseInt (default "" (headers !! "x-ratelimit-limit"))
    else limit rl.
Proof.
  unfold Index.updateRateLimit.
  destruct (JS.truthy_opt (headers !! "x-ratelimit-limit"));
    destruct (JS.truthy_opt (headers !! "x-ratelimit-remaining")); reflexivity.
Qed.

Lemma updateRateLimit_remaining (headers : gmap string string) (rl : RateLimit) :
  remaining (Index.updateRateLimit headers rl) =
    if JS.truthy_opt (headers !! "x-ratelimit-remaining")
    then JS.parseInt (default "" (headers !! "x-ratelimit-remaining"))
    else remaining rl.
Proof.
  unfold Index.updateRateLimit.
  destruct (JS.truthy_opt (headers !! "x-ratelimit-limit"));
    destruct (JS.truthy_opt (headers !! "x-ratelimit-remaining")); reflexivity.
Qed.

Lemma updateRateLimit_resetTime (headers : gmap string string) (rl : RateLimit) :
  resetTime (Index.updateRateLimit headers rl) = resetTime rl.
Proof.
  unfold Index.updateRateLimit.
  destruct (JS.truthy_opt (headers !! "x-ratelimit-limit"));
    destruct (JS.truthy_opt (headers !! "x-ratelimit-remaining")); reflexivity.
Qed.

Example parseInt_1000 : JS.parseInt "1000" = JS.Num 1000.
Proof. reflexivity. Qed.

Example parseInt_950 : JS.parseInt "950" = JS.Num 950.
Proof. reflexivity. Qed.

Example parseInt_forms :
  JS.parseInt " 42 requests" = JS.Num 42 /\ JS.parseInt "0x1F" = JS.Num 31
  /\ JS.parseInt "-7" = JS.Num (-7) /\ JS.parseInt "many" = JS.NaN.
Proof. repeat split; reflexivity. Qed.

(** C7: after a fulfilled outbound call the snapshot follows the
    response headers: [x-ratelimit-limit: 1000] and
    [x-ratelimit-remaining: 950] give [limit = 1000] and
    [remaining = 950]; a field changes only if its header is present,
    and a field whose header is absent keeps the value it had when the
    answer arrived; [resetTime] is never touched. *)
Theorem rate_limit_follows_headers (env : Env) (st : Server)
    (date : option string) (resp : Response.t) :
  apodCache st !! Index.dateKey date (now env) = None ->
  axios_get env (Index.request env date) = inl resp ->
  let h := Response.headers resp in
  let before := RATE_LIMIT (meanwhile env st) in
  let after := RATE_LIMIT (final (Index.fetchAPOD date env st)) in
  (h !! "x-ratelimit-limit" = Some "1000" -> limit after = JS.Num 1000)
  /\ (h !! "x-ratelimit-remaining" = Some "950" -> remaining after = JS.Num 950)
  /\ (forall v, h !! "x-ratelimit-limit" = Some v -> v <> "" ->
      limit after = JS.parseInt v)
  /\ (forall v, h !! "x-ratelimit-remaining" = Some v -> v <> "" ->
      remaining after = JS.parseInt v)
  /\ (h !! "x-ratelimit-limit" = None -> limit after = limit before)
  /\ (h !! "x-ratelimit-remaining" = None -> remaining after = remaining before)
  /\ (limit after <> limit before -> is_Some (h !! "x-ratelimit-limit"))
  /\ (remaining after <> remaining before ->
      is_Some (h !! "x-ratelimit-remaining"))
  /\ resetTime after = resetTime before.
Proof.
  intros Hmiss Hnet h before after.
  assert (Hafter : after = Index.updateRateLimit h before).
  { subst after. rewrite (Index_fetch_fulfilled env st date resp Hmiss Hnet).
    reflexivity. }
  rewrite Hafter, updateRateLimit_limit, updateRateLimit_remaining,
    updateRateLimit_resetTime.
  repeat split.
  - intros ->. reflexivity.
  - intros ->. reflexivity.
  - intros v -> Hv. destruct v; [congruence | reflexivity].
  - intros v -> Hv. destruct v; [congruence | reflexivity].
  - intros ->. reflexivity.
  - intros ->. reflexivity.
  - destruct (h !! "x-ratelimit-limit"); [eauto | simpl; congruence].
  - destruct (h !! "x-ratelimit-remaining"); [eauto | simpl; congruence].
Qed.

Lemma rate_limit_follows_headers_witness :
  let env := env_jan2 (answers (Response.mk headers_1000_950 apod_jan1)) in
  let after := RATE_LIMIT (final (Index.fetchAPOD (Some "2024-01-01") env Index.init)) in
  apodCache Index.init !! Index.dateKey (Some "2024-01-01") (now env) = None
  /\ limit after = JS.Num 1000 /\ remaining after = JS.Num 950.
Proof.
  intros env after.
  assert (Hmiss : apodCache Index.init
                    !! Index.dateKey (Some "2024-01-01") (now env) = None)
    by reflexivity.
  assert (Hnet : axios_get env (Index.request env (Some "2024-01-01"))
                 = inl (Response.mk headers_1000_950 apod_jan1))
    by reflexivity.
  destruct (rate_limit_follows_headers env Index.init (Some "2024-01-01")
              (Response.mk headers_1000_950 apod_jan1) Hmiss Hnet)
    as (Hl & Hr & _).
  split; [exact Hmiss|].
  split; [apply Hl | apply Hr]; reflexivity.
Defined.

(** The snapshot of the other variant follows the same headers. *)
Lemma Part001_rate_limit (env : Env) (st : Server)
    (date : option string) (resp : Response.t) :
  apodCache st !! Index.dateKey date (now env) = None ->
  axios_get env (Part001.request env date) = inl resp ->
  RATE_LIMIT (final (Part001.fetchAPOD date env st))
    = Index.updateRateLimit (Response.headers resp)
        (RATE_LIMIT (meanwhile env st)).
Proof.
  intros Hmiss Hnet.
  rewrite (Part001_fetch_fulfilled env st date resp Hmiss Hnet). reflexivity.
Qed.

(** ** Failure of the outbound call *)

(** What an invocation itself writes: nothing unless its call is
    fulfilled. *)
Lemma Index_fetch_writes (env : Env) (st : Server) (date : option string) :
  final (Index.fetchAPOD date env st) = st
  \/ final (Index.fetchAPOD date env st) = meanwhile env st
  \/ exists resp,
       apodCache st !! Index.dateKey date (now env) = None
       /\ axios_get env (Index.request env date) = inl resp
       /\ final (Index.fetchAPOD date env st)
          = written date (Index.dateKey date (now env)) resp (meanwhile env st).
Proof.
  destruct (Index_fetch_cases env st date)
    as [(x & _ & Hr) | [(e' & _ & _ & Hr) | (resp & Hmiss & Hnet & Hr)]];
    rewrite Hr; simpl; eauto 6.
Qed.

(** C10: when the awaited GET of [fetchAPOD] is rejected, the error
    reaches the caller and the invocation writes nothing: the state it
    leaves is the one it resumed on (the one it started from when no
    other request ran during the wait).  Whenever [fetchAPOD] throws it
    has written nothing, and all its writes come after a fulfilled
    call. *)
Theorem fetch_failure_is_atomic (env : Env) (st : Server) (date : option string) :
  let r := Index.fetchAPOD date env st in
  let req := Index.request env date in
  (forall e, apodCache st !! Index.dateKey date (now env) = None ->
             axios_get env req = inr e ->
             r = mkStep (inr e) (meanwhile env st) [req]
             /\ (meanwhile env st = st -> final r = st))
  /\ (forall e, outcome r = inr e ->
                final r = meanwhile env st
                /\ axios_get env req = inr e /\ calls r = [req])
  /\ (final r <> st -> final r <> meanwhile env st ->
      exists resp, axios_get env req = inl resp /\ calls r = [req]).
Proof.
  intros r req. split; [|split].
  - intros e Hmiss Hnet.
    assert (Hr : r = mkStep (inr e) (meanwhile env st) [req])
      by (apply Index_fetch_rejected; assumption).
    split; [exact Hr|]. intros Halone. rewrite Hr. exact Halone.
  - intros e Hout. subst r req.
    destruct (Index_fetch_cases env st date)
      as [(x & _ & Hr) | [(e' & _ & Hnet & Hr) | (resp & _ & _ & Hr)]];
      rewrite Hr in *; simpl in Hout; try discriminate.
    injection Hout as ->. auto.
  - intros Hchg Hchg'. subst r req.
    destruct (Index_fetch_cases env st date)
      as [(x & _ & Hr) | [(e' & _ & Hnet & Hr) | (resp & _ & Hnet & Hr)]];
      rewrite Hr in *; simpl in Hchg, Hchg'; try congruence.
    exists resp. auto.
Qed.

Lemma fetch_failure_is_atomic_witness :
  let env := env_jan2 (fails err_timeout) in
  apodCache st_jan1 !! Index.dateKey None (now env) = None
  /\ Index.fetchAPOD None env st_jan1
     = mkStep (inr err_timeout) st_jan1 [Index.request env None].
Proof.
  intros env.
  assert (Hmiss : apodCache st_jan1 !! Index.dateKey None (now env) = None)
    by (vm_compute; reflexivity).
  split; [exact Hmiss|].
  exact (proj1 (proj1 (fetch_failure_is_atomic env st_jan1 None)
                  err_timeout Hmiss eq_refl)).
Defined.

(** The variant that catches and rethrows behaves the same. *)
Lemma Part001_fetch_failure (env : Env) (st : Server) (date : option string)
    (e : AxiosError.t) :
  outcome (Part001.fetchAPOD date env st) = inr e ->
  final (Part001.fetchAPOD date env st) = meanwhile env st
  /\ axios_get env (Part001.request env date) = inr e.
Proof.
  intros Hout.
  destruct (Part001_fetch_cases env st date)
    as [(x & _ & Hr) | [(e' & _ & Hnet & Hr) | (resp & _ & _ & Hr)]];
    rewrite Hr in *; simpl in Hout; try discriminate.
  injection Hout as ->. auto.
Qed.

(** ** What an invocation does to the entries of the cache *)

(** A cached record is replaced by a different one, with a provider
    that never changes a record: early on 2 January (UTC) the date is
    omitted and the provider answers with the picture of 1 January,
    which is stored under 2024-01-01 and under the local key 2024-01-02;
    early on 3 January the provider answers with the picture of
    2 January, and storing it under the date it reports replaces the
    record held under 2024-01-02. *)
Lemma cached_record_replaced :
  let st2 := final (Index.fetchAPOD None early_jan2 Index.init) in
  let st3 := final (Index.fetchAPOD None early_jan3 st2) in
  apodCache st2 !! "2024-01-02" = Some apod_jan1
  /\ apodCache st3 !! "2024-01-02" = Some apod_jan2
  /\ apod_jan2 <> apod_jan1.
Proof.
  intros st2 st3. split; [vm_compute; reflexivity|].
  split; [vm_compute; reflexivity | discriminate].
Qed.

(** The same happens when the provider has edited a record since it was
    cached. *)
Example edited_record_replaces_cached :
  let env := env_jan2 (answers (Response.mk headers_1000_950 apod_jan1_revised)) in
  let st' := final (Index.fetchAPOD None env st_jan1) in
  apodCache st_jan1 !! "2024-01-01" = Some apod_jan1
  /\ apodCache st' !! "2024-01-01" = Some apod_jan1_revised.
Proof. split; [reflexivity | vm_compute; reflexivity]. Qed.

(** The writes of a fulfilled call, entry by entry. *)
Lemma written_entry (date : option string) (key : string) (resp : Response.t)
    (base : Server) (k : string) (r : Apod.t) :
  apodCache base !! k = Some r ->
  apodCache (written date key resp base) !! k = Some r
  \/ ((k = Apod.date (Response.data resp)
       \/ (k = key /\ JS.truthy_opt date = false))
      /\ apodCache (written date key resp base) !! k = Some (Response.data resp)).
Proof.
  intros Hk. rewrite written_cache, stored_lookup.
  destruct (decide (k = Apod.date (Response.data resp))) as [Heq|Hne];
    [right; auto|].
  destruct (decide (k = key)) as [Heq|Hne']; [|left; exact Hk].
  destruct (JS.truthy_opt date) eqn:Ht; simpl; [left; exact Hk | right; auto].
Qed.

Lemma Index_entry_after_fetch (env : Env) (st : Server) (date : option string) :
  let st' := final (Index.fetchAPOD date env st) in
  let key := Index.dateKey date (now env) in
  (is_Some (apodCache st !! key) -> st' = st)
  /\ (apodCache st !! key = None ->
      forall k r, apodCache (meanwhile env st) !! k = Some r ->
        apodCache st' !! k = Some r
        \/ exists resp,
             axios_get env (Index.request env date) = inl resp
             /\ (k = Apod.date (Response.data resp)
                 \/ (k = key /\ JS.truthy_opt date = false))
             /\ apodCache st' !! k = Some (Response.data resp))
  /\ (meanwhile env st = st ->
      forall k r, apodCache st !! k = Some r ->
        apodCache st' !! k = Some r
        \/ (apodCache st !! key = None /\ k <> key
            /\ exists resp,
                 axios_get env (Index.request env date) = inl resp
                 /\ k = Apod.date (Response.data resp)
                 /\ apodCache st' !! k = Some (Response.data resp))).
Proof.
  intros st' key. subst st'.
  destruct (Index_fetch_cases env st date)
    as [(x & Hhit & Hr) | [(e' & Hmiss & _ & Hr) | (resp & Hmiss & Hnet & Hr)]];
    fold key in Hr |- *; rewrite Hr; simpl.
  - fold key in Hhit. split; [reflexivity|]. split; [congruence | auto].
  - fold key in Hmiss. split; [intros [x Hx]; congruence|].
    split; [auto|]. intros -> k r Hk. auto.
  - fold key in Hmiss. split; [intros [x Hx]; congruence|]. split.
    + intros _ k r Hk.
      destruct (written_entry date key resp (meanwhile env st) k r Hk)
        as [Hkeep | [Hwhere Hnew]]; [left; exact Hkeep|].
      right. exists resp. auto.
    + intros Halone k r Hk. rewrite Halone.
      assert (Hne : k <> key) by congruence.
      destruct (written_entry date key resp st k r Hk)
        as [Hkeep | [[Hprov | [Hkey _]] Hnew]];
        [left; exact Hkeep | | contradiction].
      right. split; [exact Hmiss|]. split; [exact Hne|]. exists resp. auto.
Qed.

(** The cache a fulfilled miss leaves, entry by entry. *)
Lemma Index_fetch_stores (env : Env) (st : Server) (date : option string)
    (resp : Response.t) :
  let st' := final (Index.fetchAPOD date env st) in
  let key := Index.dateKey date (now env) in
  let data := Response.data resp in
  apodCache st !! key = None ->
  axios_get env (Index.request env date) = inl resp ->
  outcome (Index.fetchAPOD date env st) = inl data
  /\ apodCache st' !! Apod.date data = Some data
  /\ (JS.truthy_opt date = false -> apodCache st' !! key = Some data)
  /\ (forall k, k <> Apod.date data ->
        k <> key \/ JS.truthy_opt date = true ->
        apodCache st' !! k = apodCache (meanwhile env st) !! k).
Proof.
  intros st' key data Hmiss Hnet. subst st'.
  rewrite (Index_fetch_fulfilled env st date resp Hmiss Hnet).
  cbv beta iota delta [outcome final]. fold key. fold data.
  split; [reflexivity|]. rewrite written_cache. fold data. split; [|split].
  - rewrite stored_lookup. destruct (decide _); [reflexivity | congruence].
  - intros Ht. rewrite stored_lookup, Ht.
    destruct (decide (key = Apod.date data)); [reflexivity|].
    destruct (decide (key = key)); [reflexivity | congruence].
  - intros k Hk Hother. rewrite stored_lookup.
    destruct (decide (k = Apod.date data)); [congruence|].
    destruct (decide (k = key)) as [Heq|Hne]; [|reflexivity].
    destruct Hother as [Hne | Ht]; [congruence|]. rewrite Ht. reflexivity.
Qed.

(** C9 (amended): [fetchAPOD] never removes an entry.  A cache hit writes
    nothing.  On a miss nothing is written unless the outbound call is
    fulfilled; then the record of the response is written under the date
    the provider reports and, when the date was omitted, under the key
    that was looked up, replacing whatever is stored there at that
    moment, identical or not; every other entry stays as it is.  When no
    other request ran during the wait, the key looked up had no entry,
    so the only entry that can be replaced is the one under the
    provider's date. *)
Theorem cache_entries_after_fetch (env : Env) (st : Server) (date : option string) :
  let st' := final (Index.fetchAPOD date env st) in
  let key := Index.dateKey date (now env) in
  (is_Some (apodCache st !! key) -> st' = st)
  /\ (forall e, apodCache st !! key = None ->
        axios_get env (Index.request env date) = inr e ->
        st' = meanwhile env st)
  /\ (forall resp, apodCache st !! key = None ->
        axios_get env (Index.request env date) = inl resp ->
        apodCache st' !! Apod.date (Response.data resp)
          = Some (Response.data resp)
        /\ (JS.truthy_opt date = false ->
            apodCache st' !! key = Some (Response.data resp))
        /\ (forall k, k <> Apod.date (Response.data resp) ->
              k <> key \/ JS.truthy_opt date = true ->
              apodCache st' !! k = apodCache (meanwhile env st) !! k))
  /\ (apodCache st !! key = None ->
      forall k r, apodCache (meanwhile env st) !! k = Some r ->
        apodCache st' !! k = Some r
        \/ exists resp,
             axios_get env (Index.request env date) = inl resp
             /\ (k = Apod.date (Response.data resp)
                 \/ (k = key /\ JS.truthy_opt date = false))
             /\ apodCache st' !! k = Some (Response.data resp))
  /\ (meanwhile env st = st ->
      forall k r, apodCache st !! k = Some r ->
        apodCache st' !! k = Some r
        \/ (apodCache st !! key = None /\ k <> key
            /\ exists resp,
                 axios_get env (Index.request env date) = inl resp
                 /\ k = Apod.date (Response.data resp)
                 /\ apodCache st' !! k = Some (Response.data resp))).
Proof.
  intros st' key.
  destruct (Index_entry_after_fetch env st date) as (Hhit & Hmiss & Halone).
  split; [exact Hhit|]. split; [|split; [|split; [exact Hmiss | exact Halone]]].
  - intros e Hnone Hnet. subst st'.
    rewrite (Index_fetch_rejected env st date e Hnone Hnet). reflexivity.
  - intros resp Hnone Hnet.
    exact (proj2 (Index_fetch_stores env st date resp Hnone Hnet)).
Qed.

Lemma cache_entries_after_fetch_witness :
  let st2 := final (Index.fetchAPOD None early_jan2 Index.init) in
  let st3 := final (Index.fetchAPOD None early_jan3 st2) in
  let resp := Response.mk ∅ apod_jan2 in
  apodCache st2 !! Index.dateKey None (now early_jan3) = None
  /\ axios_get early_jan3 (Index.request early_jan3 None) = inl resp
  /\ apodCache st2 !! "2024-01-02" = Some apod_jan1
  /\ apodCache st3 !! Apod.date (Response.data resp) = Some (Response.data resp)
  /\ apodCache st3 !! Index.dateKey None (now early_jan3)
     = Some (Response.data resp)
  /\ apodCache st3 !! "2024-01-01" = apodCache st2 !! "2024-01-01".
Proof.
  intros st2 st3 resp.
  assert (Hnone : apodCache st2 !! Index.dateKey None (now early_jan3) = None)
    by (vm_compute; reflexivity).
  assert (Hnet : axios_get early_jan3 (Index.request early_jan3 None) = inl resp)
    by reflexivity.
  assert (Hk : apodCache st2 !! "2024-01-02" = Some apod_jan1)
    by (vm_compute; reflexivity).
  destruct (cache_entries_after_fetch early_jan3 st2 None)
    as (_ & _ & Hwrites & _ & _).
  destruct (Hwrites resp Hnone Hnet) as (Hprov & Hkey & Hrest).
  split; [exact Hnone|]. split; [exact Hnet|]. split; [exact Hk|].
  split; [exact Hprov|]. split; [exact (Hkey eq_refl)|].
  apply Hrest; [discriminate | left; vm_compute; discriminate].
Defined.

(** Consequences: entries are never lost, and when the invocation runs
    alone the entry under the key that was asked for is never replaced. *)
Lemma cache_entries_kept (env : Env) (st : Server) (date : option string)
    (k : string) :
  meanwhile env st = st ->
  is_Some (apodCache st !! k) ->
  is_Some (apodCache (final (Index.fetchAPOD date env st)) !! k).
Proof.
  intros Halone [r Hr].
  destruct (proj2 (proj2 (Index_entry_after_fetch env st date)) Halone k r Hr)
    as [H | (_ & _ & resp & _ & _ & H)]; eauto.
Qed.

Lemma requested_entry_kept (env : Env) (st : Server) (date : option string)
    (r : Apod.t) :
  apodCache st !! Index.dateKey date (now env) = Some r ->
  apodCache (final (Index.fetchAPOD date env st)) !! Index.dateKey date (now env)
    = Some r.
Proof.
  intros Hr.
  rewrite (proj1 (Index_entry_after_fetch env st date)) by eauto. exact Hr.
Qed.

(** Two requests for the same missing day that overlap both call the
    provider, and the one that resumes last overwrites the entry the
    other stored: here the other request stored the first record while
    this one was waiting. *)
Example overlapping_misses :
  let other (s : Server) :=
    mkServer (<["2024-01-01" := apod_jan1]> (apodCache s)) (RATE_LIMIT s) in
  let env :=
    mkEnv noon_jan2 0 "DEMO_KEY"
          (answers (Response.mk headers_1000_950 apod_jan1_revised)) other in
  let r := Index.fetchAPOD (Some "2024-01-01") env Index.init in
  calls r = [Index.request env (Some "2024-01-01")]
  /\ apodCache (meanwhile env Index.init) !! "2024-01-01" = Some apod_jan1
  /\ apodCache (final r) !! "2024-01-01" = Some apod_jan1_revised.
Proof. repeat split; vm_compute; reflexivity. Qed.

Lemma Part001_entry_after_fetch (env : Env) (st : Server)
    (date : option string) (k : string) (r : Apod.t) :
  meanwhile env st = st ->
  apodCache st !! k = Some r ->
  let st' := final (Part001.fetchAPOD date env st) in
  apodCache st' !! k = Some r
  \/ (exists resp,
        axios_get env (Part001.request env date) = inl resp
        /\ k = Apod.date (Response.data resp)
        /\ apodCache st' !! k = Some (Response.data resp)).
Proof.
  intros Halone Hk st'. subst st'.
  destruct (Part001_fetch_cases env st date)
    as [(x & _ & Hr) | [(e' & _ & _ & Hr) | (resp & Hmiss & Hnet & Hr)]];
    rewrite Hr; simpl; rewrite ?Halone; auto.
  assert (Hne : k <> Index.dateKey date (now env)) by congruence.
  destruct (written_entry date (Index.dateKey date (now env)) resp st k r Hk)
    as [Hkeep | [[Hprov | [Hkey _]] Hnew]];
    [left; exact Hkeep | | contradiction].
  right. exists resp. auto.
Qed.

(* ===================================================================== *)
(** * The error helper *)
(* ===================================================================== *)

Lemma getErrorMessage_errorMessage (error : AxiosError.t) (customMessage : string) :
  Part001.getErrorMessage error customMessage
    = Index.errorMessage error customMessage.
Proof. reflexivity. Qed.

Lemma displayed_no_msg (error : AxiosError.t) (customMessage : string) :
  Index.response_msg error = None \/ Index.response_msg error = Some "" ->
  Index.displayed error customMessage = Index.errorMessage error customMessage.
Proof. unfold Index.displayed. intros [-> | ->]; reflexivity. Qed.

Lemma displayed_msg (error : AxiosError.t) (customMessage msg : string) :
  Index.response_msg error = Some msg -> msg <> "" ->
  Index.displayed error customMessage = msg.
Proof.
  unfold Index.displayed. intros -> Hne.
  destruct msg; [congruence | reflexivity].
Qed.

Lemma status_ge_500 (n : Z) : 500 <= n -> Index.status_ge (Some n) 500 = true.
Proof. intros H. simpl. rewrite Z.geb_leb. apply Z.leb_le. exact H. Qed.

Lemma status_is_429 (n : Z) : Index.status_is (Some n) 429 = true <-> n = 429.
Proof. simpl. apply Z.eqb_eq. Qed.

(** In [handleError] a 429 answer whose body carries a [msg] is shown
    with that [msg], not with the rate-limit message: the displayed
    message of the class depends on the error body. *)
Lemma displayed_429_depends_on_body :
  let quiet := err_status 429 BodyNone in
  let loud := err_status 429 (BodyObject (Some "Slow down")) in
  Index.response_status quiet = Some 429
  /\ Index.response_status loud = Some 429
  /\ reply_error (Index.handleError quiet "Failed to fetch today's picture.")
     = Some Index.MSG_RATE_LIMIT
  /\ reply_error (Index.handleError loud "Failed to fetch today's picture.")
     = Some "Slow down"
  /\ Index.displayed loud "Failed to fetch today's picture."
     <> Index.displayed quiet "Failed to fetch today's picture.".
Proof. repeat split; try reflexivity. discriminate. Qed.

(** C3 (amended): the message the helper computes ([getErrorMessage],
    the local [errorMessage] of [handleError]) is the fixed rate-limit
    message for status 429, the fixed try-again-later message for a
    status of 500 or more, and the fixed timeout message for code
    [ECONNABORTED] without a response, whatever the body.
    [getErrorMessage] returns it as it is; [handleError] shows it unless
    the error body has a non-empty [msg], which it shows instead; a
    timeout has no body, so it always shows the fixed message. *)
Theorem error_classes_messages (error : AxiosError.t) (customMessage : string) :
  let status := Index.response_status error in
  let computed (m : string) :=
    Part001.getErrorMessage error customMessage = m
    /\ Index.errorMessage error customMessage = m
    /\ (Index.response_msg error = None \/ Index.response_msg error = Some "" ->
        reply_error (Index.handleError error customMessage) = Some m)
    /\ (forall msg, Index.response_msg error = Some msg -> msg <> "" ->
        reply_error (Index.handleError error customMessage) = Some msg) in
  (status = Some 429 -> computed Index.MSG_RATE_LIMIT)
  /\ (forall n, status = Some n -> 500 <= n -> computed Index.MSG_SERVER)
  /\ (AxiosError.response error = None ->
      AxiosError.code error = Some "ECONNABORTED" ->
      computed Index.MSG_TIMEOUT
      /\ reply_error (Index.handleError error customMessage)
         = Some Index.MSG_TIMEOUT).
Proof.
  intros status computed.
  assert (Hshape : forall m, Index.errorMessage error customMessage = m -> computed m).
  { intros m Hm. unfold computed.
    rewrite getErrorMessage_errorMessage.
    split; [assumption|]. split; [assumption|]. split.
    - intros Hno. simpl. rewrite displayed_no_msg by assumption. congruence.
    - intros msg Hmsg Hne. simpl. rewrite (displayed_msg _ _ msg) by assumption.
      reflexivity. }
  split; [|split].
  - intros Hs. apply Hshape. unfold Index.errorMessage. fold status.
    rewrite Hs. reflexivity.
  - intros n Hs Hge. apply Hshape. unfold Index.errorMessage. fold status.
    rewrite Hs.
    replace (Index.status_is (Some n) 429) with false
      by (symmetry; apply Z.eqb_neq; lia).
    rewrite status_ge_500 by assumption. reflexivity.
  - intros Hresp Hcode.
    assert (Hm : Index.errorMessage error customMessage = Index.MSG_TIMEOUT).
    { unfold Index.errorMessage, Index.response_status.
      rewrite Hresp, Hcode. reflexivity. }
    split; [apply Hshape; exact Hm|].
    simpl. rewrite displayed_no_msg; [congruence|].
    left. unfold Index.response_msg. rewrite Hresp. reflexivity.
Qed.

Lemma error_classes_messages_witness :
  reply_error (Index.handleError err_timeout "Failed to fetch random picture.")
    = Some Index.MSG_TIMEOUT
  /\ Part001.getErrorMessage (err_status 429 (BodyObject (Some "Slow down")))
       "Failed to fetch today's picture." = Index.MSG_RATE_LIMIT
  /\ Part001.getErrorMessage (err_status 503 (BodyText "Service Unavailable"))
       "Failed to fetch today's picture." = Index.MSG_SERVER.
Proof.
  split; [|split].
  - exact (proj2 (proj2 (proj2
      (error_classes_messages err_timeout "Failed to fetch random picture."))
      eq_refl eq_refl)).
  - exact (proj1 (proj1
      (error_classes_messages (err_status 429 (BodyObject (Some "Slow down")))
         "Failed to fetch today's picture.") eq_refl)).
  - refine (proj1 (proj1 (proj2
      (error_classes_messages (err_status 503 (BodyText "Service Unavailable"))
         "Failed to fetch today's picture.")) 503 eq_refl _)); lia.
Defined.

(** The body's [msg] also takes precedence outside the class OTHER: in
    [handleError] a 503 answer with a [msg] is shown with that [msg],
    not with the try-again-later message. *)
Lemma precedence_applies_to_server_errors :
  let error := err_status 503 (BodyObject (Some "Scheduled maintenance")) in
  Index.status_ge (Index.response_status error) 500 = true
  /\ Index.errorMessage error "Failed to fetch random picture." = Index.MSG_SERVER
  /\ reply_error (Index.handleError error "Failed to fetch random picture.")
     = Some "Scheduled maintenance"
  /\ reply_error (Index.handleError error "Failed to fetch random picture.")
     <> Some Index.MSG_SERVER.
Proof. repeat split; try reflexivity. discriminate. Qed.

Lemma errorMessage_other (error : AxiosError.t) (customMessage : string) :
  Index.response_status error <> Some 429 ->
  (forall n, Index.response_status error = Some n -> n < 500) ->
  AxiosError.code error <> Some "ECONNABORTED" ->
  Index.errorMessage error customMessage
    = customMessage ++ " " ++ AxiosError.message error.
Proof.
  intros H429 H500 Hcode. unfold Index.errorMessage.
  destruct (Index.response_status error) as [n|]; simpl.
  - replace (n =? 429) with false by (symmetry; apply Z.eqb_neq; congruence).
    replace (n >=? 500) with false
      by (symmetry; rewrite Z.geb_leb; apply Z.leb_gt; apply H500; reflexivity).
    destruct (AxiosError.code error) as [c|]; simpl; [|reflexivity].
    replace (String.eqb c "ECONNABORTED") with false; [reflexivity|].
    symmetry. apply String.eqb_neq. congruence.
  - destruct (AxiosError.code error) as [c|]; simpl; [|reflexivity].
    replace (String.eqb c "ECONNABORTED") with false; [reflexivity|].
    symmetry. apply String.eqb_neq. congruence.
Qed.

(** C6 (amended): for a failure of the class OTHER the computed message
    is the caller's default, a space and the raw error text;
    [getErrorMessage] returns exactly that, while [handleError] and the
    [catch] block of the first variant show the [msg] of the error body
    instead when it is present and non-empty.  That precedence is
    applied after the classification, to an error of any class. *)
Theorem other_class_message (error : AxiosError.t) (customMessage : string) :
  Index.response_status error <> Some 429 ->
  (forall n, Index.response_status error = Some n -> n < 500) ->
  AxiosError.code error <> Some "ECONNABORTED" ->
  let fallback := customMessage ++ " " ++ AxiosError.message error in
  Index.errorMessage error customMessage = fallback
  /\ Part001.getErrorMessage error customMessage = fallback
  /\ (Index.response_msg error = None \/ Index.response_msg error = Some "" ->
      reply_error (Index.handleError error customMessage) = Some fallback)
  /\ (forall selectedDate,
        Index.response_msg error = None \/ Index.response_msg error = Some "" ->
        Part000.post_catch_error error selectedDate
          = ("Failed to fetch picture from " ++ selectedDate ++ ".")
              ++ " " ++ AxiosError.message error)
  /\ (forall (e : AxiosError.t) (custom msg : string),
        Index.response_msg e = Some msg -> msg <> "" ->
        reply_error (Index.handleError e custom) = Some msg
        /\ Part000.post_catch_error e custom = msg).
Proof.
  intros H429 H500 Hcode fallback. subst fallback.
  pose proof (errorMessage_other error customMessage H429 H500 Hcode) as Hm.
  split; [exact Hm|]. split; [rewrite getErrorMessage_errorMessage; exact Hm|].
  split; [|split].
  - intros Hno. simpl. rewrite displayed_no_msg by assumption. congruence.
  - intros selectedDate Hno. unfold Part000.post_catch_error.
    replace (Index.status_is (Index.response_status error) 429) with false.
    + destruct Hno as [-> | ->]; reflexivity.
    + symmetry. destruct (Index.response_status error) as [n|]; [|reflexivity].
      apply Z.eqb_neq. congruence.
  - intros e custom msg Hmsg Hne. split.
    + simpl. rewrite (displayed_msg _ _ msg) by assumption. reflexivity.
    + unfold Part000.post_catch_error. rewrite Hmsg.
      destruct msg; [congruence | reflexivity].
Qed.

Lemma other_class_message_witness :
  let error := err_status 400 (BodyObject (Some "Date must be between Jun 16, 1995 and Jan 02, 2024.")) in
  let plain := err_status 404 BodyNone in
  Index.response_status plain <> Some 429
  /\ AxiosError.code plain <> Some "ECONNABORTED"
  /\ reply_error (Index.handleError plain "Failed to fetch random picture.")
     = Some "Failed to fetch random picture. Request failed with status code 404"
  /\ reply_error (Index.handleError error "Failed to fetch random picture.")
     = Some "Date must be between Jun 16, 1995 and Jan 02, 2024.".
Proof.
  intros error plain.
  assert (H429 : Index.response_status plain <> Some 429) by discriminate.
  assert (H500 : forall n, Index.response_status plain = Some n -> n < 500)
    by (intros n Hn; injection Hn as <-; lia).
  assert (Hcode : AxiosError.code plain <> Some "ECONNABORTED") by discriminate.
  destruct (other_class_message plain "Failed to fetch random picture."
              H429 H500 Hcode) as (_ & _ & Hshow & _ & Hprec).
  split; [exact H429|]. split; [exact Hcode|]. split.
  - exact (Hshow (or_introl eq_refl)).
  - apply (Hprec error "Failed to fetch random picture."
             "Date must be between Jun 16, 1995 and Jan 02, 2024.");
      [reflexivity | discriminate].
Defined.

(* ===================================================================== *)
(** * The date check of the date-selection route *)
(* ===================================================================== *)

Lemma regex_test_shaped (s : string) :
  JS.regex_test JS.dateRegex s = true <-> date_shaped s.
Proof.
  split.
  - intros H. unfold JS.regex_test, JS.dateRegex in H.
    do 10 (destruct s as [|? s]; cbn [JS.match_anchored] in H;
           [discriminate H|]; apply andb_true_iff in H as [? H]).
    destruct s; [|discriminate H].
    cbn [JS.atom_matches] in *.
    repeat match goal with
           | E : Ascii.eqb _ _ = true |- _ => apply Ascii.eqb_eq in E; subst
           end.
    unfold date_shaped. do 8 eexists. split; [reflexivity|]. auto 10.
  - intros (a & b & c & d & e & f & g & h & -> & Ha & Hb & Hc & Hd & He & Hf & Hg & Hh).
    apply (regex_iso_chars a b c d e f g h); assumption.
Qed.

Lemma minDate_value : JS.Date_parse "1995-06-16" = JS.Num 803260800000.
Proof. reflexivity. Qed.

Example Date_parse_samples :
  JS.Date_parse "1970-01-01" = JS.Num 0
  /\ JS.Date_parse "2000-01-01" = JS.Num 946684800000
  /\ JS.Date_parse "1990-01-01" = JS.Num 631152000000
  /\ JS.Date_parse "2024-02-30" = JS.Date_parse "2024-03-01"
  /\ JS.Date_parse "2024-13-40" = JS.NaN
  /\ JS.Date_parse "2024-00-10" = JS.NaN.
Proof. repeat split; reflexivity. Qed.

Example toISOString_samples :
  JS.toISOString 803260800000 = "1995-06-16T00:00:00.000Z"
  /\ JS.toISOString 1704196800000 = "2024-01-02T12:00:00.000Z"
  /\ JS.toISOString (-1) = "1969-12-31T23:59:59.999Z"
  /\ JS.toISOString 253402300800000 = "+010000-01-01T00:00:00.000Z".
Proof. repeat split; reflexivity. Qed.

Lemma validate_format (now : Z) (selectedDate : option string) :
  Index.validate now selectedDate = Some Index.FORMAT_ERROR
  <-> ~ (exists s, selectedDate = Some s /\ date_shaped s).
Proof.
  unfold Index.validate.
  destruct selectedDate as [s|]; simpl.
  - destruct s as [|c s]; simpl.
    + split; [|reflexivity]. intros _ (s & Hs & Hshape).
      injection Hs as <-. apply regex_test_shaped in Hshape. discriminate.
    + destruct (JS.regex_test JS.dateRegex (String c s)) eqn:Hre; simpl.
      * split.
        -- intros H.
           match type of H with
           | (if ?b then _ else _) = _ => destruct b; discriminate H
           end.
        -- intros Hno. exfalso. apply Hno. exists (String c s).
           split; [reflexivity|]. apply regex_test_shaped. exact Hre.
      * split; [|reflexivity]. intros _ (s' & Hs & Hshape).
        injection Hs as <-. apply regex_test_shaped in Hshape. congruence.
  - split; [|reflexivity]. intros _ (s & Hs & _). discriminate.
Qed.

Lemma validate_checked (now : Z) (s : string) (t : Z) :
  JS.regex_test JS.dateRegex s = true ->
  JS.Date_parse s = JS.Num t ->
  Index.validate now (Some s) =
    if (t <? 803260800000) || (t >? now) then Some Index.RANGE_ERROR else None.
Proof.
  intros Hre Hp. unfold Index.validate. simpl.
  destruct s as [|c s]; [discriminate Hre|]. simpl.
  rewrite Hre, Hp, minDate_value. reflexivity.
Qed.

Lemma validate_invalid_date (now : Z) (s : string) :
  JS.regex_test JS.dateRegex s = true ->
  JS.Date_parse s = JS.NaN ->
  Index.validate now (Some s) = None.
Proof.
  intros Hre Hp. unfold Index.validate. simpl.
  destruct s as [|c s]; [discriminate Hre|]. simpl.
  rewrite Hre, Hp. reflexivity.
Qed.

(** A rejected date is answered at once: the reply carries the message,
    nothing is fetched and the state is not touched. *)
Lemma post_rejected (env : Env) (st : Server) (selectedDate : option string)
    (e : Index.ValidationError) :
  Index.validate (now env) selectedDate = Some e ->
  Index.post_get_date_picture selectedDate env st
    = mkStep (inl (Index.render_error (Index.validation_message e))) st [].
Proof.
  intros Hv. run_handler. rewrite Hv. reflexivity.
Qed.

(** An accepted date is handed to [fetchAPOD]: when it is not cached,
    the outbound request carries it. *)
Lemma post_accepted_calls (env : Env) (st : Server) (s : string) :
  s <> "" ->
  Index.validate (now env) (Some s) = None ->
  apodCache st !! s = None ->
  calls (Index.post_get_date_picture (Some s) env st)
    = [Request.mk (API_KEY env) (Some s) 25000 None].
Proof.
  intros Hs Hv Hmiss. run_handler. rewrite Hv.
  assert (Hkey : Index.dateKey (Some s) (now env) = s) by (apply dateKey_given; exact Hs).
  assert (Hreq : Index.request env (Some s) = Request.mk (API_KEY env) (Some s) 25000 None).
  { unfold Index.request, Index.params_date. destruct s; [congruence|reflexivity]. }
  destruct (Index_fetch_cases env st (Some s))
    as [(x & Hhit & _) | [(e' & _ & _ & Hr) | (resp & _ & _ & Hr)]].
  - rewrite Hkey in Hhit. congruence.
  - rewrite Hr. run_handler. rewrite Hreq. reflexivity.
  - rewrite Hr. run_handler. rewrite Hreq. reflexivity.
Qed.

(** ["2024-13-40"] is made of digits and hyphens in the right places, so
    the pattern matches it and the check does not answer with the format
    error. *)
Lemma month_13_is_not_a_format_error :
  JS.regex_test JS.dateRegex "2024-13-40" = true
  /\ Index.validate noon_jan2 (Some "2024-13-40") <> Some Index.FORMAT_ERROR.
Proof. split; [reflexivity | vm_compute; discriminate]. Qed.

(** C2 (amended): the date check answers FORMAT_ERROR exactly for an
    input that is missing, empty or not of the shape the pattern
    describes, and then replies at once with the format message, without
    a fetch; the pattern only looks at digits and hyphens, so
    ["2024-13-40"] has the shape and is not a format error. *)
Theorem format_error_exactly_off_pattern (clock : Z) (selectedDate : option string) :
  (Index.validate clock selectedDate = Some Index.FORMAT_ERROR
   <-> ~ (exists s, selectedDate = Some s /\ date_shaped s))
  /\ (forall env st,
        Index.validate (now env) selectedDate = Some Index.FORMAT_ERROR ->
        Index.post_get_date_picture selectedDate env st
          = mkStep (inl (Index.render_error
                           "Invalid date format. Please use YYYY-MM-DD.")) st [])
  /\ date_shaped "2024-13-40"
  /\ Index.validate clock (Some "2024-13-40") <> Some Index.FORMAT_ERROR.
Proof.
  split; [apply validate_format|]. split.
  - intros env st Hv. apply (post_rejected env st selectedDate _ Hv).
  - assert (Hshape : date_shaped "2024-13-40")
      by (apply regex_test_shaped; reflexivity).
    split; [exact Hshape|].
    intros Hv. apply validate_format in Hv. apply Hv. eauto.
Qed.

Lemma format_error_exactly_off_pattern_witness :
  Index.validate noon_jan2 (Some "2024-1-40") = Some Index.FORMAT_ERROR
  /\ Index.post_get_date_picture (Some "2024-1-40")
       (env_jan2 (fails err_timeout)) st_jan1
     = mkStep (inl (Index.render_error
                      "Invalid date format. Please use YYYY-MM-DD.")) st_jan1 [].
Proof.
  assert (Hv : Index.validate noon_jan2 (Some "2024-1-40") = Some Index.FORMAT_ERROR)
    by (vm_compute; reflexivity).
  split; [exact Hv|].
  exact (proj1 (proj2 (format_error_exactly_off_pattern noon_jan2 (Some "2024-1-40")))
           (env_jan2 (fails err_timeout)) st_jan1 Hv).
Defined.

(** For a string that denotes a date, the range check is the one the
    message states: accepted from 1995-06-16 up to the present moment,
    both ends included. *)
Lemma validate_range (now : Z) (s : string) (t : Z) :
  JS.regex_test JS.dateRegex s = true ->
  JS.Date_parse s = JS.Num t ->
  (803260800000 <= t <= now -> Index.validate now (Some s) = None)
  /\ (t < 803260800000 \/ now < t ->
      Index.validate now (Some s) = Some Index.RANGE_ERROR).
Proof.
  intros Hre Hp. rewrite (validate_checked now s t Hre Hp). split.
  - intros [Hlo Hhi].
    replace (t <? 803260800000) with false by (symmetry; apply Z.ltb_ge; lia).
    replace (t >? now) with false
      by (symmetry; rewrite Z.gtb_ltb; apply Z.ltb_ge; lia).
    reflexivity.
  - intros [Hlo | Hhi].
    + replace (t <? 803260800000) with true by (symmetry; apply Z.ltb_lt; lia).
      reflexivity.
    + replace (t >? now) with true
        by (symmetry; rewrite Z.gtb_ltb; apply Z.ltb_lt; lia).
      rewrite orb_true_r. reflexivity.
Qed.

Example validate_1990 (clock : Z) :
  Index.validate clock (Some "1990-01-01") = Some Index.RANGE_ERROR.
Proof.
  apply (validate_range clock "1990-01-01" 631152000000); [reflexivity..|].
  left. lia.
Qed.

Example validate_2000 (clock : Z) :
  946684800000 <= clock -> Index.validate clock (Some "2000-01-01") = None.
Proof.
  intros H.
  apply (validate_range clock "2000-01-01" 946684800000); [reflexivity..|]. lia.
Qed.

Example validate_first_day (clock : Z) :
  803260800000 <= clock -> Index.validate clock (Some "1995-06-16") = None.
Proof.
  intros H.
  apply (validate_range clock "1995-06-16" 803260800000); [reflexivity..|]. lia.
Qed.

(** Today's date string is accepted at any moment of the day. *)
Lemma validate_today (clock : Z) :
  803260800000 <= clock < 253402300800000 ->
  Index.validate clock (Some (Index.today clock)) = None.
Proof.
  intros H.
  destruct (today_parse clock) as [Hre Hp]; [lia|].
  apply (validate_range clock _ _ Hre Hp).
  unfold JS.msPerDay. Z.div_mod_to_equations. lia.
Qed.

(** C5 (the failing input): ["2024-13-40"] passes the format check, its
    [Date] is invalid, both comparisons of the range check are false on
    it, and the check accepts it whatever the clock says; the handler
    then fetches it, so an uncached server asks the provider for it. *)
Theorem validate_accepts_month_13 (clock : Z) :
  JS.regex_test JS.dateRegex "2024-13-40" = true
  /\ JS.Date_parse "2024-13-40" = JS.NaN
  /\ Index.validate clock (Some "2024-13-40") = None
  /\ forall env, calls (Index.post_get_date_picture (Some "2024-13-40") env Index.init)
                 = [Request.mk (API_KEY env) (Some "2024-13-40") 25000 None].
Proof.
  assert (Hv : forall c, Index.validate c (Some "2024-13-40") = None)
    by (intros c; apply validate_invalid_date; reflexivity).
  split; [reflexivity|]. split; [reflexivity|]. split; [apply Hv|].
  intros env. apply post_accepted_calls; [discriminate | apply Hv | reflexivity].
Qed.

(* ===================================================================== *)
(** * The random date *)
(* ===================================================================== *)

(** Below 2^53 every integer is a double. *)
Lemma round53_small (p : Z) : 0 <= p < 2 ^ 53 -> JS.round53 p = p.
Proof.
  intros Hp. unfold JS.round53.
  assert (Hl : Z.log2 p <= 52).
  { destruct (Z.eq_dec p 0) as [->|Hn]; [cbn; lia|].
    assert (Z.log2 p < 53) by (apply Z.log2_lt_pow2; lia). lia. }
  destruct (Z.leb_spec (Z.log2 p - 52) 0); [reflexivity|lia].
Qed.

(** From 2^53 on the value is cut to 53 bits, rounding down or up. *)
Lemma round53_scaled (p : Z) :
  0 <= p ->
  0 < Z.log2 p - 52 ->
  exists q', JS.round53 p = q' * 2 ^ (Z.log2 p - 52)
             /\ p / 2 ^ (Z.log2 p - 52) <= q' <= p / 2 ^ (Z.log2 p - 52) + 1.
Proof.
  intros Hp Hs. unfold JS.round53.
  destruct (Z.leb_spec (Z.log2 p - 52) 0) as [Hle|_]; [lia|].
  cbv zeta.
  match goal with |- context [if ?c then _ else _] => destruct c end;
    eexists; (split; [reflexivity|lia]).
Qed.

(** The floor of a rounded product is the floor of the exact one, or one
    more. *)
Lemma round53_div (p : Z) :
  0 <= p < 2 ^ 106 ->
  p / 2 ^ 53 <= JS.round53 p / 2 ^ 53 <= p / 2 ^ 53 + 1.
Proof.
  intros Hp.
  destruct (Z_lt_le_dec p (2 ^ 53)) as [Hlt|Hge].
  - rewrite round53_small by lia. lia.
  - assert (Hl : 53 <= Z.log2 p < 106).
    { split; [apply Z.log2_le_pow2; lia | apply Z.log2_lt_pow2; lia]. }
    destruct (round53_scaled p) as (q' & -> & Hq); [lia|lia|].
    set (s := Z.log2 p - 52) in *.
    assert (H53 : 2 ^ 53 = 2 ^ (53 - s) * 2 ^ s).
    { rewrite <- Z.pow_add_r by lia. f_equal. lia. }
    assert (Hd : 0 < 2 ^ (53 - s)) by (apply Z.pow_pos_nonneg; lia).
    assert (Hs : 0 < 2 ^ s) by (apply Z.pow_pos_nonneg; lia).
    rewrite H53.
    rewrite Z.div_mul_cancel_r by lia.
    rewrite (Z.mul_comm (2 ^ (53 - s))), <- Z.div_div by lia.
    set (q := p / 2 ^ s) in *. set (d := 2 ^ (53 - s)) in *.
    split.
    + apply Z.div_le_mono; lia.
    + transitivity ((q + 1 * d) / d).
      * apply Z.div_le_mono; nia.
      * rewrite Z.div_add by lia. lia.
Qed.

(** [Math.floor(Math.random() * timeDiff)] is the exact floor or one
    more, and never exceeds [timeDiff]. *)
Lemma floor_product_bounds (random timeDiff : Z) :
  0 <= random < 2 ^ 53 -> 0 <= timeDiff < 2 ^ 53 ->
  (random * timeDiff) / 2 ^ 53 <= JS.floor_product random timeDiff
     <= (random * timeDiff) / 2 ^ 53 + 1
  /\ 0 <= JS.floor_product random timeDiff <= timeDiff.
Proof.
  intros Hr Ht. unfold JS.floor_product.
  assert (Hp : 0 <= random * timeDiff) by nia.
  destruct (Z.eq_dec (random * timeDiff) 0) as [H0|Hn].
  - rewrite H0. change (Z.sgn 0 * JS.round53 (Z.abs 0)) with 0.
    rewrite Z.div_0_l by lia. lia.
  - rewrite Z.sgn_pos, Z.abs_eq, Z.mul_1_l by lia.
    assert (Hb : random * timeDiff < 2 ^ 106).
    { replace (2 ^ 106) with (2 ^ 53 * 2 ^ 53) by reflexivity. nia. }
    pose proof (round53_div (random * timeDiff) (conj Hp Hb)) as Hd.
    assert (Hlt : (random * timeDiff) / 2 ^ 53 < timeDiff).
    { apply Z.div_lt_upper_bound; nia. }
    assert (0 <= (random * timeDiff) / 2 ^ 53) by (apply Z.div_pos; lia).
    lia.
Qed.

(** The moment the generator draws lies between the first picture and
    now. *)
Lemma randomTime_bounds (clock random : Z) :
  803260800000 <= clock < 253402300800000 ->
  0 <= random < 2 ^ 53 ->
  803260800000
    <= 803260800000 + JS.floor_product random (clock - 803260800000)
    <= clock.
Proof.
  intros Hc Hr.
  assert (Ht : 0 <= clock - 803260800000 < 2 ^ 53) by lia.
  pose proof (floor_product_bounds random (clock - 803260800000) Hr Ht). lia.
Qed.

(** Any moment between the first picture and now has a date string that
    lies between 1995-06-16 and today's; this also covers a product
    rounded up to the next integer. *)
Lemma dates_between (clock t : Z) :
  803260800000 <= t <= clock -> clock < 253402300800000 ->
  JS.regex_test JS.dateRegex (Index.today t) = true
  /\ exists day today_day,
       JS.Date_parse (Index.today t) = JS.Num day
       /\ JS.Date_parse (Index.today clock) = JS.Num today_day
       /\ 803260800000 <= day <= today_day.
Proof.
  intros Ht Hc.
  destruct (today_parse t) as [Hre Hp]; [lia|].
  destruct (today_parse clock) as [_ Hpc]; [lia|].
  split; [exact Hre|].
  exists (t / JS.msPerDay * JS.msPerDay), (clock / JS.msPerDay * JS.msPerDay).
  split; [exact Hp|]. split; [exact Hpc|].
  unfold JS.msPerDay. Z.div_mod_to_equations. lia.
Qed.

(** C8: with the clock between 1995-06-16 and the end of year 9999, the
    random-date generator returns a string of the form YYYY-MM-DD; it is
    the date of the moment [firstAPOD + floor(random * timeDiff)], where
    the product is the double product (the exact floor or one more), so
    the string parses to the UTC midnight of the day that moment falls
    on, and that day lies between 1995-06-16 and today's date, both
    included. *)
Theorem randomDate_in_range (clock random : Z) :
  803260800000 <= clock < 253402300800000 ->
  0 <= random < 2 ^ 53 ->
  exists (dateString : string) (randomTime day today_day : Z),
    Index.randomDate clock random = Some dateString
    /\ randomTime
       = 803260800000 + JS.floor_product random (clock - 803260800000)
    /\ (random * (clock - 803260800000)) / 2 ^ 53
         <= JS.floor_product random (clock - 803260800000)
         <= (random * (clock - 803260800000)) / 2 ^ 53 + 1
    /\ 803260800000 <= randomTime <= clock
    /\ dateString = Index.today randomTime
    /\ JS.regex_test JS.dateRegex dateString = true
    /\ JS.Date_parse dateString = JS.Num day
    /\ day = randomTime / JS.msPerDay * JS.msPerDay
    /\ JS.Date_parse "1995-06-16" = JS.Num 803260800000
    /\ JS.Date_parse (Index.today clock) = JS.Num today_day
    /\ today_day = clock / JS.msPerDay * JS.msPerDay
    /\ 803260800000 <= day <= today_day.
Proof.
  intros Hc Hr.
  assert (Hdiff : 0 <= clock - 803260800000 < 2 ^ 53) by lia.
  destruct (floor_product_bounds random (clock - 803260800000) Hr Hdiff)
    as [Hnear _].
  pose proof (randomTime_bounds clock random Hc Hr) as Ht.
  set (randomTime :=
         803260800000 + JS.floor_product random (clock - 803260800000)) in *.
  destruct (today_parse randomTime) as [Hre Hp]; [lia|].
  destruct (today_parse clock) as [_ Hpc]; [lia|].
  exists (Index.today randomTime), randomTime,
    (randomTime / JS.msPerDay * JS.msPerDay), (clock / JS.msPerDay * JS.msPerDay).
  split.
  - unfold Index.randomDate. rewrite minDate_value. cbv zeta.
    fold randomTime. unfold Index.today. reflexivity.
  - split; [reflexivity|]. split; [exact Hnear|]. split; [exact Ht|].
    split; [reflexivity|]. split; [exact Hre|]. split; [exact Hp|].
    split; [reflexivity|]. split; [exact minDate_value|].
    split; [exact Hpc|]. split; [reflexivity|].
    unfold JS.msPerDay. Z.div_mod_to_equations. lia.
Qed.

Lemma randomDate_in_range_witness :
  803260800000 <= noon_jan2 < 253402300800000
  /\ 0 <= 132160295945852 < 2 ^ 53
  /\ exists (dateString : string) (randomTime day today_day : Z),
       Index.randomDate noon_jan2 132160295945852 = Some dateString
       /\ randomTime
          = 803260800000
            + JS.floor_product 132160295945852 (noon_jan2 - 803260800000)
       /\ (132160295945852 * (noon_jan2 - 803260800000)) / 2 ^ 53
            <= JS.floor_product 132160295945852 (noon_jan2 - 803260800000)
            <= (132160295945852 * (noon_jan2 - 803260800000)) / 2 ^ 53 + 1
       /\ 803260800000 <= randomTime <= noon_jan2
       /\ dateString = Index.today randomTime
       /\ JS.regex_test JS.dateRegex dateString = true
       /\ JS.Date_parse dateString = JS.Num day
       /\ day = randomTime / JS.msPerDay * JS.msPerDay
       /\ JS.Date_parse "1995-06-16" = JS.Num 803260800000
       /\ JS.Date_parse (Index.today noon_jan2) = JS.Num today_day
       /\ today_day = noon_jan2 / JS.msPerDay * JS.msPerDay
       /\ 803260800000 <= day <= today_day.
Proof.
  assert (Hc : 803260800000 <= noon_jan2 < 253402300800000)
    by (unfold noon_jan2; lia).
  assert (Hr : 0 <= 132160295945852 < 2 ^ 53) by lia.
  split; [exact Hc|]. split; [exact Hr|].
  exact (randomDate_in_range noon_jan2 132160295945852 Hc Hr).
Defined.

(** A draw whose product with the time span is rounded up to the next
    integer, and with it to the next day: the exact product lies less
    than a millionth below 13219200000 milliseconds, the double product
    is 13219200000, which added to the first picture's moment is the
    first millisecond of 1995-11-16. *)
Example randomDate_rounded_up :
  (132160295945852 * (noon_jan2 - 803260800000)) / 2 ^ 53 = 13219199999
  /\ JS.floor_product 132160295945852 (noon_jan2 - 803260800000) = 13219200000
  /\ Index.today (803260800000 + 13219199999) = "1995-11-15"
  /\ Index.randomDate noon_jan2 132160295945852 = Some "1995-11-16".
Proof. vm_compute. repeat split; reflexivity. Qed.

Example randomDate_halfway :
  Index.randomDate noon_jan2 (2 ^ 52) = Some "2009-09-23".
Proof. vm_compute. reflexivity. Qed.

(** The [/random] handler fetches the date it drew. *)
Lemma get_random_calls (env : Env) (st : Server) (dateString : string) :
  Index.randomDate (now env) (random env) = Some dateString ->
  dateString <> "" ->
  apodCache st !! dateString = None ->
  calls (Index.get_random env st)
    = [Request.mk (API_KEY env) (Some dateString) 25000 None].
Proof.
  intros Hd Hs Hmiss. run_handler. rewrite Hd. run_handler.
  assert (Hkey : Index.dateKey (Some dateString) (now env) = dateString)
    by (apply dateKey_given; exact Hs).
  assert (Hreq : Index.request env (Some dateString)
                 = Request.mk (API_KEY env) (Some dateString) 25000 None).
  { unfold Index.request, Index.params_date.
    destruct dateString; [congruence|reflexivity]. }
  destruct (Index_fetch_cases env st (Some dateString))
    as [(x & Hhit & _) | [(e' & _ & _ & Hr) | (resp & _ & _ & Hr)]].
  - rewrite Hkey in Hhit. congruence.
  - rewrite Hr. run_handler. rewrite Hreq. reflexivity.
  - rewrite Hr. run_handler. rewrite Hreq. reflexivity.
Qed.

(* ===================================================================== *)
(** * The handlers of index.js *)
(* ===================================================================== *)

(** A handler of the form [try { data = await fetch; render } catch
    { handleError }] replies in both cases and keeps the state and the
    calls of the fetch. *)
Lemma try_render_catch (fetch : M Apod.t) (render : Apod.t -> Reply)
    (handle : AxiosError.t -> Reply) (env : Env) (st : Server) :
  try_catch (data ← fetch; ret (render data)) (fun error => ret (handle error))
    env st
  = mkStep (inl (match outcome (fetch env st) with
                 | inl data => render data
                 | inr error => handle error
                 end))
      (final (fetch env st)) (calls (fetch env st)).
Proof.
  cbv beta iota zeta delta [try_catch mbind M_bind bind ret].
  destruct (fetch env st) as [[data|error] st' cs];
    cbv beta iota delta [outcome final calls]; rewrite !app_nil_r; reflexivity.
Qed.

Lemma get_root_run (env : Env) (st : Server) :
  Index.get_root env st
  = mkStep (inl (match outcome (Index.fetchAPOD None env st) with
                 | inl data => Index.render_data data
                 | inr error =>
                     Index.handleError error "Failed to fetch today's picture."
                 end))
      (final (Index.fetchAPOD None env st)) (calls (Index.fetchAPOD None env st)).
Proof. apply try_render_catch. Qed.

Lemma post_accepted_run (env : Env) (st : Server) (selectedDate : option string) :
  Index.validate (now env) selectedDate = None ->
  Index.post_get_date_picture selectedDate env st
  = mkStep (inl (match outcome (Index.fetchAPOD selectedDate env st) with
                 | inl data => Index.render_data data
                 | inr error =>
                     Index.handleError error
                       ("Failed to fetch picture from "
                          ++ default "" selectedDate ++ ".")
                 end))
      (final (Index.fetchAPOD selectedDate env st))
      (calls (Index.fetchAPOD selectedDate env st)).
Proof.
  intros Hv.
  rewrite <- (try_render_catch (Index.fetchAPOD selectedDate) Index.render_data
                (fun error => Index.handleError error
                   ("Failed to fetch picture from "
                      ++ default "" selectedDate ++ "."))).
  unfold Index.post_get_date_picture.
  cbv beta iota zeta delta [mbind M_bind bind ask outcome final calls].
  rewrite Hv. cbv beta iota zeta delta [app].
  destruct (try_catch _ _ env st); reflexivity.
Qed.

Lemma randomDate_total (clock random : Z) :
  Index.randomDate clock random
  = Some (Index.today
            (803260800000 + JS.floor_product random (clock - 803260800000))).
Proof.
  unfold Index.randomDate. rewrite minDate_value. cbv zeta.
  unfold Index.today. reflexivity.
Qed.

Lemma ask_bind {A} (k : Env -> M A) (env : Env) (st : Server) :
  (e ← ask; k e) env st = k env env st.
Proof.
  cbv beta iota zeta delta [mbind M_bind bind ask outcome final calls app].
  destruct (k env env st) as [[a|e] st' cs]; reflexivity.
Qed.

Lemma try_catch_ext {A} (m m' : M A) (h : AxiosError.t -> M A)
    (env : Env) (st : Server) :
  m env st = m' env st -> try_catch m h env st = try_catch m' h env st.
Proof. intros H. unfold try_catch. rewrite H. reflexivity. Qed.

Lemma get_random_run (env : Env) (st : Server) :
  let dateString :=
    Index.today (803260800000
                 + JS.floor_product (random env) (now env - 803260800000)) in
  Index.get_random env st
  = mkStep (inl (match outcome (Index.fetchAPOD (Some dateString) env st) with
                 | inl data => Index.render_data data
                 | inr error =>
                     Index.handleError error "Failed to fetch random picture."
                 end))
      (final (Index.fetchAPOD (Some dateString) env st))
      (calls (Index.fetchAPOD (Some dateString) env st)).
Proof.
  intros dateString.
  rewrite <- (try_render_catch (Index.fetchAPOD (Some dateString))
                Index.render_data
                (fun error => Index.handleError error
                                "Failed to fetch random picture.")).
  unfold Index.get_random. apply try_catch_ext.
  rewrite ask_bind, randomDate_total. reflexivity.
Qed.

(** What [fetchAPOD] returns and how a handler renders it. *)
Lemma rendered_outcome (fetch : Step Apod.t) (customMessage : string) :
  let reply :=
    match outcome fetch with
    | inl data => Index.render_data data
    | inr error => Index.handleError error customMessage
    end in
  (is_Some (reply_data reply) -> shows_picture reply)
  /\ (reply_data reply = None -> shows_failure reply)
  /\ (shows_picture reply \/ shows_failure reply).
Proof.
  destruct (outcome fetch) as [data|error]; simpl;
    unfold shows_picture, shows_failure; simpl.
  - split; [eauto|]. split; [discriminate|]. left. eauto.
  - split; [intros [x Hx]; discriminate|]. split; [eauto|]. right. eauto.
Qed.

(** X1: the handlers of [index.js] never let an error out: every request
    gets a reply, the picture with status 200, or the message of the
    date check with status 200, or, when the fetch failed, status 500
    with an error message and no data. *)
Theorem index_handlers_always_reply (env : Env) (st : Server)
    (selectedDate : option string) :
  (exists reply, outcome (Index.get_root env st) = inl reply
                 /\ (shows_picture reply \/ shows_failure reply))
  /\ (exists reply,
        outcome (Index.post_get_date_picture selectedDate env st) = inl reply
        /\ (shows_picture reply \/ shows_rejection reply \/ shows_failure reply))
  /\ (exists reply, outcome (Index.get_random env st) = inl reply
                    /\ (shows_picture reply \/ shows_failure reply)).
Proof.
  split; [|split].
  - rewrite get_root_run. eexists. split; [reflexivity|].
    apply rendered_outcome.
  - destruct (Index.validate (now env) selectedDate) as [e|] eqn:Hv.
    + rewrite (post_rejected env st selectedDate e Hv).
      eexists. split; [reflexivity|]. right. left.
      unfold shows_rejection. simpl. eauto.
    + rewrite (post_accepted_run env st selectedDate Hv).
      eexists. split; [reflexivity|].
      destruct (proj2 (proj2 (rendered_outcome
                  (Index.fetchAPOD selectedDate env st)
                  ("Failed to fetch picture from "
                     ++ default "" selectedDate ++ ".")))); auto.
  - rewrite get_random_run. eexists. split; [reflexivity|].
    apply rendered_outcome.
Qed.

(** X2: no retry: one run of [fetchAPOD] sends at most one request to the
    provider, and none exactly when the key it looks up is cached; so
    every handler of [index.js] sends at most one request. *)
Theorem at_most_one_outbound_call (env : Env) (st : Server)
    (date selectedDate : option string) :
  (length (calls (Index.fetchAPOD date env st)) <= 1)%nat
  /\ (calls (Index.fetchAPOD date env st) = []
      <-> is_Some (apodCache st !! Index.dateKey date (now env)))
  /\ (length (calls (Index.get_root env st)) <= 1)%nat
  /\ (length (calls (Index.post_get_date_picture selectedDate env st)) <= 1)%nat
  /\ (length (calls (Index.get_random env st)) <= 1)%nat.
Proof.
  assert (Hfetch : forall d,
            (length (calls (Index.fetchAPOD d env st)) <= 1)%nat
            /\ (calls (Index.fetchAPOD d env st) = []
                <-> is_Some (apodCache st !! Index.dateKey d (now env)))).
  { intros d.
    destruct (Index_fetch_cases env st d)
      as [(x & Hhit & Hr) | [(e' & Hmiss & _ & Hr) | (resp & Hmiss & _ & Hr)]];
      rewrite Hr; simpl.
    - split; [lia|]. split; eauto.
    - split; [lia|]. split; [discriminate|]. intros [x Hx]. congruence.
    - split; [lia|]. split; [discriminate|]. intros [x Hx]. congruence. }
  split; [apply Hfetch|]. split; [apply Hfetch|]. split; [|split].
  - rewrite get_root_run. cbv beta iota delta [calls]. apply Hfetch.
  - destruct (Index.validate (now env) selectedDate) as [e|] eqn:Hv.
    + rewrite (post_rejected env st selectedDate e Hv). simpl. lia.
    + rewrite (post_accepted_run env st selectedDate Hv).
      cbv beta iota delta [calls]. apply Hfetch.
  - rewrite get_random_run. cbv beta iota zeta delta [calls]. apply Hfetch.
Qed.

(* ===================================================================== *)
(** * More on the fetch helper *)
(* ===================================================================== *)

(** An empty date string is treated like an omitted date: the helper
    looks up today's key, sends no [date] parameter and stores the
    answer under today's key as well; so in both variants. *)
Lemma empty_date_is_omitted (env : Env) (st : Server) :
  Index.dateKey (Some "") (now env) = Index.today (now env)
  /\ Request.date (Index.request env (Some "")) = None
  /\ Index.fetchAPOD (Some "") env st = Index.fetchAPOD None env st
  /\ Part001.fetchAPOD (Some "") env st = Part001.fetchAPOD None env st.
Proof.
  split; [reflexivity|]. split; [reflexivity|]. split.
  - cbv beta iota delta [Index.fetchAPOD Index.dateKey Index.request
                           Index.params_date JS.truthy_opt JS.truthy].
    reflexivity.
  - cbv beta iota delta [Part001.fetchAPOD Part001.request Index.dateKey
                           Index.params_date JS.truthy_opt JS.truthy].
    reflexivity.
Qed.

(** X3: a fetch for a given date that the provider answers with a record
    of another date stores the record under the provider's date only:
    the date that was asked for stays uncached, and the next request for
    it goes to the provider again. *)
Theorem given_date_answered_with_other_date (env : Env) (st : Server)
    (d : string) (resp : Response.t) :
  d <> "" ->
  apodCache st !! d = None ->
  apodCache (meanwhile env st) !! d = None ->
  axios_get env (Index.request env (Some d)) = inl resp ->
  Apod.date (Response.data resp) <> d ->
  let st' := final (Index.fetchAPOD (Some d) env st) in
  apodCache st' !! Apod.date (Response.data resp) = Some (Response.data resp)
  /\ apodCache st' !! d = None
  /\ forall env', calls (Index.fetchAPOD (Some d) env' st')
                  = [Index.request env' (Some d)].
Proof.
  intros Hd Hmiss Hmean Hnet Hdiff st'.
  assert (Hkey : forall c, Index.dateKey (Some d) c = d)
    by (intros c; apply dateKey_given; exact Hd).
  assert (Hst : apodCache st' =
            stored (Some d) d (Response.data resp) (apodCache (meanwhile env st))).
  { subst st'.
    rewrite (Index_fetch_fulfilled env st (Some d) resp); rewrite ?Hkey; auto. }
  assert (Hnone : apodCache st' !! d = None).
  { rewrite Hst, stored_lookup.
    destruct (decide (d = Apod.date (Response.data resp))); [congruence|].
    destruct (decide (d = d)); [|congruence].
    replace (JS.truthy_opt (Some d)) with true
      by (destruct d; [congruence | reflexivity]).
    exact Hmean. }
  split; [|split].
  - rewrite Hst, stored_lookup.
    destruct (decide (Apod.date (Response.data resp)
                      = Apod.date (Response.data resp))); congruence.
  - exact Hnone.
  - intros env'.
    destruct (Index_fetch_cases env' st' (Some d))
      as [(x & Hhit & _) | [(e' & _ & _ & Hr) | (r' & _ & _ & Hr)]];
      [rewrite Hkey in Hhit; congruence | rewrite Hr; reflexivity..].
Qed.

Lemma given_date_answered_with_other_date_witness :
  let env := env_jan2 (answers (Response.mk headers_1000_950 apod_jan1)) in
  let st' := final (Index.fetchAPOD (Some "2024-01-02") env Index.init) in
  apodCache st' !! "2024-01-01" = Some apod_jan1
  /\ apodCache st' !! "2024-01-02" = None
  /\ calls (Index.fetchAPOD (Some "2024-01-02") env st')
     = [Index.request env (Some "2024-01-02")].
Proof.
  intros env st'.
  destruct (given_date_answered_with_other_date env Index.init "2024-01-02"
              (Response.mk headers_1000_950 apod_jan1))
    as (Hprov & Hnone & Hagain);
    [discriminate | reflexivity | reflexivity | reflexivity | discriminate |].
  split; [exact Hprov|]. split; [exact Hnone | exact (Hagain env)].
Defined.

(** X4: when [fetchAPOD] has returned a record and either the date was
    omitted or the record carries the date that was asked for, asking
    again for the same key is served from the cache: the same record,
    no outbound call, no change of state. *)
Theorem repeated_fetch_is_a_hit (env env' : Env) (st : Server)
    (date : option string) (data : Apod.t) :
  outcome (Index.fetchAPOD date env st) = inl data ->
  JS.truthy_opt date = false
  \/ Apod.date data = Index.dateKey date (now env) ->
  Index.dateKey date (now env') = Index.dateKey date (now env) ->
  let st' := final (Index.fetchAPOD date env st) in
  Index.fetchAPOD date env' st' = mkStep (inl data) st' [].
Proof.
  intros Hout Hsame Hkey st'. subst st'.
  apply Index_fetch_hit. rewrite Hkey.
  destruct (Index_fetch_cases env st date)
    as [(x & Hhit & Hr) | [(e' & _ & _ & Hr) | (resp & Hmiss & Hnet & Hr)]];
    rewrite Hr in *; simpl in Hout; try discriminate;
    injection Hout as Hd; cbn [final].
  - congruence.
  - rewrite written_cache, stored_lookup. rewrite Hd.
    destruct (decide (Index.dateKey date (now env) = Apod.date data));
      [reflexivity|].
    destruct (decide (Index.dateKey date (now env)
                      = Index.dateKey date (now env))); [|congruence].
    destruct Hsame as [-> | Heq]; [reflexivity | congruence].
Qed.

Lemma repeated_fetch_is_a_hit_witness :
  let env := env_jan2 (answers (Response.mk headers_1000_950 apod_jan1)) in
  let st' := final (Index.fetchAPOD (Some "2024-01-01") env Index.init) in
  outcome (Index.fetchAPOD (Some "2024-01-01") env Index.init) = inl apod_jan1
  /\ Index.fetchAPOD (Some "2024-01-01") (env_jan2 (fails err_timeout)) st'
     = mkStep (inl apod_jan1) st' [].
Proof.
  intros env st'. split; [reflexivity|].
  apply (repeated_fetch_is_a_hit env (env_jan2 (fails err_timeout)) Index.init
           (Some "2024-01-01") apod_jan1);
    [reflexivity | right; reflexivity | reflexivity].
Defined.

Lemma stored_dom (date : option string) (key : string) (data : Apod.t)
    (cache : gmap string Apod.t) :
  dom cache ⊆ dom (stored date key data cache)
  /\ dom (stored date key data cache) ⊆ dom cache ∪ {[Apod.date data; key]}
  /\ (JS.truthy_opt date = true ->
      dom (stored date key data cache) = dom cache ∪ {[Apod.date data]}).
Proof.
  unfold stored.
  destruct (JS.truthy_opt date); simpl;
    [|destruct (String.eqb (Apod.date data) key); simpl];
    rewrite ?dom_insert_L.
  - split; [apply union_subseteq_r|].
    split; [|intros _; apply (comm_L (∪))].
    intros x. rewrite !elem_of_union, !elem_of_singleton. tauto.
  - split; [apply union_subseteq_r|]. split; [|discriminate].
    intros x. rewrite !elem_of_union, !elem_of_singleton. tauto.
  - split; [etrans; apply union_subseteq_r|]. split; [|discriminate].
    intros x. rewrite !elem_of_union, !elem_of_singleton. tauto.
Qed.

Lemma stored_size (date : option string) (key : string) (data : Apod.t)
    (cache : gmap string Apod.t) :
  (size cache <= size (stored date key data cache) <= size cache + 2)%nat
  /\ (JS.truthy_opt date = true ->
      (size (stored date key data cache) <= size cache + 1)%nat).
Proof.
  assert (Hins : forall (k : string) (v : Apod.t) (m : gmap string Apod.t),
            (size m <= size (<[k := v]> m) <= size m + 1)%nat).
  { intros k v m. rewrite map_size_insert.
    destruct (m !! k); unfold id; lia. }
  unfold stored.
  destruct (JS.truthy_opt date); simpl.
  - pose proof (Hins (Apod.date data) data cache). split; [lia | intros _; lia].
  - destruct (String.eqb (Apod.date data) key); simpl.
    + pose proof (Hins (Apod.date data) data cache).
      split; [lia | discriminate].
    + pose proof (Hins (Apod.date data) data cache).
      pose proof (Hins key data (<[Apod.date data := data]> cache)).
      split; [lia | discriminate].
Qed.

(** X5: the cache only grows: a run of [fetchAPOD] (alone, no other
    request during its wait) keeps every key, adds at most two keys, at
    most one when a date was given, and adds none unless its outbound
    call was fulfilled. *)
Theorem cache_only_grows (env : Env) (st : Server) (date : option string) :
  meanwhile env st = st ->
  let st' := final (Index.fetchAPOD date env st) in
  dom (apodCache st) ⊆ dom (apodCache st')
  /\ (size (apodCache st) <= size (apodCache st') <= size (apodCache st) + 2)%nat
  /\ (JS.truthy_opt date = true ->
      (size (apodCache st') <= size (apodCache st) + 1)%nat)
  /\ (apodCache st' <> apodCache st ->
      exists resp, axios_get env (Index.request env date) = inl resp
                   /\ dom (apodCache st')
                      ⊆ dom (apodCache st)
                        ∪ {[Apod.date (Response.data resp);
                            Index.dateKey date (now env)]}).
Proof.
  intros Halone st'. subst st'.
  destruct (Index_fetch_cases env st date)
    as [(x & _ & Hr) | [(e' & _ & _ & Hr) | (resp & _ & Hnet & Hr)]];
    rewrite Hr; cbn [final]; rewrite ?Halone.
  - repeat split; try lia; try congruence; set_solver.
  - repeat split; try lia; try congruence; set_solver.
  - rewrite written_cache.
    destruct (stored_dom date (Index.dateKey date (now env))
                (Response.data resp) (apodCache st)) as (Hsub & Hsup & _).
    destruct (stored_size date (Index.dateKey date (now env))
                (Response.data resp) (apodCache st)) as (Hsz & Hsz1).
    split; [exact Hsub|]. split; [exact Hsz|]. split; [exact Hsz1|].
    intros _. exists resp. split; [exact Hnet | exact Hsup].
Qed.

Lemma cache_only_grows_witness :
  let env := env_jan2 (answers (Response.mk headers_1000_950 apod_jan2)) in
  let st' := final (Index.fetchAPOD (Some "2024-01-02") env st_jan1) in
  meanwhile env st_jan1 = st_jan1
  /\ dom (apodCache st_jan1) ⊆ dom (apodCache st')
  /\ (size (apodCache st') <= size (apodCache st_jan1) + 1)%nat.
Proof.
  intros env st'.
  destruct (cache_only_grows env st_jan1 (Some "2024-01-02") eq_refl)
    as (Hdom & _ & Hone & _).
  split; [reflexivity|]. split; [exact Hdom | exact (Hone eq_refl)].
Defined.

(** X6: applying the same response headers twice leaves the snapshot as
    after the first time, and when both headers carry a value the new
    counters are read from the headers alone, whatever the snapshot held
    before. *)
Theorem updateRateLimit_idempotent (headers : gmap string string)
    (rl rl' : RateLimit) :
  Index.updateRateLimit headers (Index.updateRateLimit headers rl)
    = Index.updateRateLimit headers rl
  /\ (JS.truthy_opt (headers !! "x-ratelimit-limit") = true ->
      JS.truthy_opt (headers !! "x-ratelimit-remaining") = true ->
      limit (Index.updateRateLimit headers rl)
        = limit (Index.updateRateLimit headers rl')
      /\ remaining (Index.updateRateLimit headers rl)
         = remaining (Index.updateRateLimit headers rl')).
Proof.
  split.
  - unfold Index.updateRateLimit.
    destruct (JS.truthy_opt (headers !! "x-ratelimit-limit"));
      destruct (JS.truthy_opt (headers !! "x-ratelimit-remaining"));
      destruct rl; reflexivity.
  - intros Hl Hr.
    rewrite !updateRateLimit_limit, !updateRateLimit_remaining, Hl, Hr. auto.
Qed.

Lemma updateRateLimit_idempotent_witness :
  JS.truthy_opt (headers_1000_950 !! "x-ratelimit-limit") = true
  /\ limit (Index.updateRateLimit headers_1000_950 Index.RATE_LIMIT_init)
     = limit (Index.updateRateLimit headers_1000_950
                (mkRateLimit JS.NaN JS.NaN None)).
Proof.
  split; [reflexivity|].
  exact (proj1 (proj2 (updateRateLimit_idempotent headers_1000_950
                         Index.RATE_LIMIT_init (mkRateLimit JS.NaN JS.NaN None))
                  eq_refl eq_refl)).
Defined.

(* ===================================================================== *)
(** * More on the date check and the routes that use it *)
(* ===================================================================== *)

(** X7: for an input of the shape YYYY-MM-DD that denotes a date, the
    date check accepts it exactly when that date lies between
    1995-06-16 and the present moment, both ends included, and answers
    RANGE_ERROR otherwise. *)
Theorem date_check_on_real_dates (clock : Z) (s : string) (t : Z) :
  JS.regex_test JS.dateRegex s = true ->
  JS.Date_parse s = JS.Num t ->
  (Index.validate clock (Some s) = None <-> 803260800000 <= t <= clock)
  /\ (Index.validate clock (Some s) = Some Index.RANGE_ERROR
      <-> t < 803260800000 \/ clock < t).
Proof.
  intros Hre Hp.
  destruct (validate_range clock s t Hre Hp) as [Hin Hout].
  destruct (Z_le_dec 803260800000 t) as [Hlo|Hlo];
    [destruct (Z_le_dec t clock) as [Hhi|Hhi]|].
  - rewrite Hin by lia. split; split; try lia; try discriminate; auto.
  - rewrite Hout by lia. split; split; try lia; try discriminate; auto.
  - rewrite Hout by lia. split; split; try lia; try discriminate; auto.
Qed.

Lemma date_check_on_real_dates_witness :
  JS.regex_test JS.dateRegex "2024-02-29" = true
  /\ JS.Date_parse "2024-02-29" = JS.Num 1709164800000
  /\ (Index.validate noon_jan2 (Some "2024-02-29") = Some Index.RANGE_ERROR
      <-> 1709164800000 < 803260800000 \/ noon_jan2 < 1709164800000).
Proof.
  split; [reflexivity|]. split; [reflexivity|].
  exact (proj2 (date_check_on_real_dates noon_jan2 "2024-02-29" 1709164800000
                  eq_refl eq_refl)).
Defined.

(** X8: the key [fetchAPOD] computes for today has the shape YYYY-MM-DD,
    denotes the UTC day of the clock, and is accepted by the date check
    at every moment of that day (clock from 1995-06-16 to the end of
    year 9999): the home page and the date form agree on what "today"
    is. *)
Theorem today_key_passes_date_check (clock : Z) :
  803260800000 <= clock < 253402300800000 ->
  date_shaped (Index.today clock)
  /\ JS.Date_parse (Index.today clock)
     = JS.Num (clock / JS.msPerDay * JS.msPerDay)
  /\ Index.validate clock (Some (Index.today clock)) = None.
Proof.
  intros H.
  destruct (today_parse clock) as [Hre Hp]; [lia|].
  split; [apply regex_test_shaped; exact Hre|]. split; [exact Hp|].
  apply validate_today. exact H.
Qed.

Lemma today_key_passes_date_check_witness :
  803260800000 <= noon_jan2 < 253402300800000
  /\ Index.validate noon_jan2 (Some (Index.today noon_jan2)) = None.
Proof.
  assert (H : 803260800000 <= noon_jan2 < 253402300800000)
    by (unfold noon_jan2; lia).
  split; [exact H|].
  exact (proj2 (proj2 (today_key_passes_date_check noon_jan2 H))).
Defined.

(** X9: the date the [/random] route draws is the date of the moment
    [firstAPOD + floor(random * timeDiff)] (double product), a moment
    between the first picture and now; it would pass the date check of
    the date form, and when it is not cached the one request the route
    sends carries exactly that date. *)
Theorem random_route_asks_for_a_valid_date (env : Env) (st : Server) :
  803260800000 <= now env < 253402300800000 ->
  0 <= random env < 2 ^ 53 ->
  exists (dateString : string) (randomTime : Z),
    Index.randomDate (now env) (random env) = Some dateString
    /\ randomTime
       = 803260800000 + JS.floor_product (random env) (now env - 803260800000)
    /\ 803260800000 <= randomTime <= now env
    /\ dateString = Index.today randomTime
    /\ JS.Date_parse dateString
       = JS.Num (randomTime / JS.msPerDay * JS.msPerDay)
    /\ Index.validate (now env) (Some dateString) = None
    /\ (apodCache st !! dateString = None ->
        calls (Index.get_random env st)
          = [Request.mk (API_KEY env) (Some dateString) 25000 None])
    /\ (forall data, apodCache st !! dateString = Some data ->
        Index.get_random env st = mkStep (inl (Index.render_data data)) st []).
Proof.
  intros Hc Hr.
  pose proof (randomTime_bounds (now env) (random env) Hc Hr) as Ht.
  set (randomTime :=
         803260800000
         + JS.floor_product (random env) (now env - 803260800000)) in *.
  destruct (today_parse randomTime) as [Hre Hp]; [lia|].
  exists (Index.today randomTime), randomTime.
  assert (Hd : Index.randomDate (now env) (random env)
               = Some (Index.today randomTime)) by apply randomDate_total.
  split; [exact Hd|]. split; [reflexivity|]. split; [exact Ht|].
  split; [reflexivity|]. split; [exact Hp|]. split; [|split].
  - apply (validate_range (now env) _ _ Hre Hp).
    unfold JS.msPerDay. Z.div_mod_to_equations. lia.
  - intros Hmiss.
    apply get_random_calls; [exact Hd | apply today_nonempty | exact Hmiss].
  - intros data Hhit. rewrite get_random_run. fold randomTime.
    rewrite (Index_fetch_hit env st (Some (Index.today randomTime)) data)
      by (rewrite dateKey_given by apply today_nonempty; exact Hhit).
    reflexivity.
Qed.

Lemma random_route_asks_for_a_valid_date_witness :
  let env :=
    mkEnv noon_jan2 132160295945852 "DEMO_KEY" (fails err_timeout) (fun st => st) in
  803260800000 <= now env < 253402300800000
  /\ 0 <= random env < 2 ^ 53
  /\ exists (dateString : string) (randomTime : Z),
       Index.randomDate (now env) (random env) = Some dateString
       /\ randomTime
          = 803260800000
            + JS.floor_product (random env) (now env - 803260800000)
       /\ 803260800000 <= randomTime <= now env
       /\ dateString = Index.today randomTime
       /\ JS.Date_parse dateString
          = JS.Num (randomTime / JS.msPerDay * JS.msPerDay)
       /\ Index.validate (now env) (Some dateString) = None
       /\ (apodCache Index.init !! dateString = None ->
           calls (Index.get_random env Index.init)
             = [Request.mk (API_KEY env) (Some dateString) 25000 None])
       /\ (forall data, apodCache Index.init !! dateString = Some data ->
           Index.get_random env Index.init
             = mkStep (inl (Index.render_data data)) Index.init []).
Proof.
  intros env.
  assert (Hc : 803260800000 <= now env < 253402300800000)
    by (simpl; unfold noon_jan2; lia).
  assert (Hr : 0 <= random env < 2 ^ 53) by (simpl; lia).
  split; [exact Hc|]. split; [exact Hr|].
  exact (random_route_asks_for_a_valid_date env Index.init Hc Hr).
Defined.

(** X10: a well-formed date before 1995-06-16 or after the present
    moment is answered at once with the range message and status 200:
    nothing is fetched, the cache and the snapshot stay as they are; an
    accepted date that is cached is rendered from the cache, again
    without a request. *)
Theorem date_form_without_request (env : Env) (st : Server) (s : string) (t : Z) :
  JS.regex_test JS.dateRegex s = true ->
  JS.Date_parse s = JS.Num t ->
  (t < 803260800000 \/ now env < t ->
   Index.post_get_date_picture (Some s) env st
     = mkStep (inl (Index.render_error
                      "Date must be between June 16, 1995 and today.")) st [])
  /\ (803260800000 <= t <= now env ->
      forall data, apodCache st !! s = Some data ->
        Index.post_get_date_picture (Some s) env st
          = mkStep (inl (Index.render_data data)) st []).
Proof.
  intros Hre Hp.
  destruct (validate_range (now env) s t Hre Hp) as [Hin Hout].
  split.
  - intros Hrange. apply (post_rejected env st (Some s) Index.RANGE_ERROR).
    apply Hout. exact Hrange.
  - intros Hrange data Hhit.
    rewrite (post_accepted_run env st (Some s) (Hin Hrange)).
    assert (Hs : s <> "") by (intros ->; discriminate Hre).
    rewrite (Index_fetch_hit env st (Some s) data)
      by (rewrite dateKey_given by exact Hs; exact Hhit).
    reflexivity.
Qed.

Lemma date_form_without_request_witness :
  let env := env_jan2 (fails err_timeout) in
  JS.regex_test JS.dateRegex "2024-01-01" = true
  /\ JS.Date_parse "2024-01-01" = JS.Num 1704067200000
  /\ Index.post_get_date_picture (Some "2024-01-01") env st_jan1
     = mkStep (inl (Index.render_data apod_jan1)) st_jan1 [].
Proof.
  intros env. split; [reflexivity|]. split; [reflexivity|].
  apply (proj2 (date_form_without_request env st_jan1 "2024-01-01" 1704067200000
                  eq_refl eq_refl)).
  - simpl. unfold noon_jan2. lia.
  - reflexivity.
Defined.

(* ===================================================================== *)
(** * The routes of the variant with JSON endpoints *)
(* ===================================================================== *)

(** X11: the page routes of this variant ([/], the date form, [/random])
    never call the provider and never touch the cache or the snapshot;
    the date form echoes an accepted date as [initialDate] with
    [isLoading] set, and answers a rejected one with the message of the
    date check; [/random] hands the date it drew to the page. *)
Theorem page_routes_never_fetch (env : Env) (st : Server)
    (selectedDate : option string) :
  (exists reply, Part001.get_root env st = mkStep (inl reply) st [])
  /\ (exists reply,
        Part001.post_get_date_picture selectedDate env st
          = mkStep (inl reply) st []
        /\ reply_data reply = None
        /\ (Index.validate (now env) selectedDate = None ->
            reply_error reply = None /\ reply_isLoading reply = Some true
            /\ reply_initialDate reply = selectedDate)
        /\ (forall e, Index.validate (now env) selectedDate = Some e ->
            reply_error reply = Some (Index.validation_message e)
            /\ reply_isLoading reply = Some false
            /\ reply_initialDate reply = None))
  /\ (exists reply dateString,
        Part001.get_random env st = mkStep (inl reply) st []
        /\ Index.randomDate (now env) (random env) = Some dateString
        /\ reply_initialDate reply = Some dateString
        /\ reply_data reply = None /\ reply_error reply = None).
Proof.
  split; [|split].
  - eexists. reflexivity.
  - unfold Part001.post_get_date_picture. rewrite ask_bind.
    destruct (Index.validate (now env) selectedDate) as [e|];
      eexists; (split; [reflexivity|]); simpl;
      (split; [reflexivity|]); split; try discriminate; auto.
    intros e' He. injection He as <-. auto.
  - unfold Part001.get_random. rewrite ask_bind, randomDate_total.
    eexists. eexists. split; [reflexivity|]. simpl. auto.
Qed.

(** X12: [/api/date/:date] does not run the date check: whatever
    non-empty string is in the path, when it is not cached it is sent to
    the provider as the [date] parameter; the route always answers in
    JSON, the record with status 200 or, when the call failed, status
    500 with the message of [getErrorMessage]. *)
Theorem api_date_is_not_checked (env : Env) (st : Server) (date : string) :
  date <> "" ->
  apodCache st !! date = None ->
  let r := Part001.get_api_date date env st in
  calls r = [Request.mk (API_KEY env) (Some date) 30000 (Some 4)]
  /\ exists reply,
       outcome r = inl reply /\ reply_view reply = None
       /\ ((exists resp,
              axios_get env (Part001.request env (Some date)) = inl resp
              /\ reply = Part001.json_data (Response.data resp))
           \/ (exists e,
                 axios_get env (Part001.request env (Some date)) = inr e
                 /\ reply = Part001.json_error
                              (Part001.getErrorMessage e
                                 ("Failed to fetch picture from " ++ date ++ ".")))).
Proof.
  intros Hd Hmiss r. subst r. unfold Part001.get_api_date.
  rewrite try_render_catch.
  assert (Hkey : Index.dateKey (Some date) (now env) = date)
    by (apply dateKey_given; exact Hd).
  assert (Hreq : Part001.request env (Some date)
                 = Request.mk (API_KEY env) (Some date) 30000 (Some 4)).
  { unfold Part001.request, Index.params_date.
    destruct date; [congruence | reflexivity]. }
  destruct (Part001_fetch_cases env st (Some date))
    as [(x & Hhit & _) | [(e' & _ & Hnet & Hr) | (resp & _ & Hnet & Hr)]].
  - rewrite Hkey in Hhit. congruence.
  - rewrite Hr. cbn [outcome final calls]. rewrite Hreq. split; [reflexivity|].
    eexists. split; [reflexivity|]. split; [reflexivity|].
    right. exists e'. rewrite <- Hreq. auto.
  - rewrite Hr. cbn [outcome final calls]. rewrite Hreq. split; [reflexivity|].
    eexists. split; [reflexivity|]. split; [reflexivity|].
    left. exists resp. rewrite <- Hreq. auto.
Qed.

Lemma api_date_is_not_checked_witness :
  let env := env_jan2 (fails (err_status 400 (BodyObject (Some "Bad date")))) in
  Index.validate (now env) (Some "2024-13-40x") = Some Index.FORMAT_ERROR
  /\ calls (Part001.get_api_date "2024-13-40x" env st_jan1)
     = [Request.mk (API_KEY env) (Some "2024-13-40x") 30000 (Some 4)].
Proof.
  intros env. split; [vm_compute; reflexivity|].
  assert (Hd : "2024-13-40x" <> "") by discriminate.
  assert (Hmiss : apodCache st_jan1 !! "2024-13-40x" = None) by reflexivity.
  exact (proj1 (api_date_is_not_checked env st_jan1 "2024-13-40x" Hd Hmiss)).
Defined.

(* ===================================================================== *)
(** * The request counters of the first variant *)
(* ===================================================================== *)

Lemma Part000_update_fields (clock : Part000.Clock) (rl : Part000.RateLimit) :
  let rl' := Part000.updateRateLimit clock rl in
  Part000.hourly rl' = Part000.hourly rl
  /\ Part000.daily rl' = Part000.daily rl
  /\ Part000.hourlyCount rl'
     = (if Part000.new_Date clock >=? Part000.hourlyResetTime rl
        then 0 else Part000.hourlyCount rl) + 1
  /\ Part000.dailyCount rl'
     = (if Part000.new_Date clock >=? Part000.dailyResetTime rl
        then 0 else Part000.dailyCount rl) + 1
  /\ Part000.hourlyResetTime rl'
     = (if Part000.new_Date clock >=? Part000.hourlyResetTime rl
        then Part000.Date_now_hourly clock + 3600000
        else Part000.hourlyResetTime rl)
  /\ Part000.dailyResetTime rl'
     = (if Part000.new_Date clock >=? Part000.dailyResetTime rl
        then Part000.Date_now_daily clock + 86400000
        else Part000.dailyResetTime rl).
Proof.
  unfold Part000.updateRateLimit. cbv zeta.
  destruct (Part000.new_Date clock >=? Part000.hourlyResetTime rl);
    cbn [Part000.dailyResetTime];
    destruct (Part000.new_Date clock >=? Part000.dailyResetTime rl);
    repeat split.
Qed.

Lemma Part000_updates_snoc (clocks : list Part000.Clock) (clock : Part000.Clock)
    (rl : Part000.RateLimit) :
  Part000.updates (clocks ++ [clock]) rl
  = Part000.updateRateLimit clock (Part000.updates clocks rl).
Proof. unfold Part000.updates. rewrite fold_left_app. reflexivity. Qed.

Lemma Part000_counters_bounded (clocks : list Part000.Clock) :
  forall rl : Part000.RateLimit,
    0 <= Part000.hourlyCount rl -> 0 <= Part000.dailyCount rl ->
    let rl' := Part000.updates clocks rl in
    Part000.hourly rl' = Part000.hourly rl
    /\ Part000.daily rl' = Part000.daily rl
    /\ 0 <= Part000.hourlyCount rl'
         <= Part000.hourlyCount rl + Z.of_nat (length clocks)
    /\ 0 <= Part000.dailyCount rl'
         <= Part000.dailyCount rl + Z.of_nat (length clocks)
    /\ (clocks <> [] ->
        1 <= Part000.hourlyCount rl' /\ 1 <= Part000.dailyCount rl').
Proof.
  induction clocks as [|clock clocks IH]; intros rl Hh Hd.
  - simpl. repeat split; try lia; intros Hne; congruence.
  - change (Part000.updates (clock :: clocks) rl)
      with (Part000.updates clocks (Part000.updateRateLimit clock rl)).
    destruct (Part000_update_fields clock rl)
      as (Hq & Hq' & Hc & Hc' & _ & _).
    assert (H1 : 1 <= Part000.hourlyCount (Part000.updateRateLimit clock rl)
                 <= Part000.hourlyCount rl + 1)
      by (rewrite Hc;
          destruct (Part000.new_Date clock >=? Part000.hourlyResetTime rl); lia).
    assert (H2 : 1 <= Part000.dailyCount (Part000.updateRateLimit clock rl)
                 <= Part000.dailyCount rl + 1)
      by (rewrite Hc';
          destruct (Part000.new_Date clock >=? Part000.dailyResetTime rl); lia).
    destruct (IH (Part000.updateRateLimit clock rl)) as (Iq & Iq' & Ic & Ic' & Ipos);
      [lia | lia |].
    cbv zeta. rewrite Iq, Iq', Hq, Hq'. simpl length.
    split; [reflexivity|]. split; [reflexivity|].
    split; [lia|]. split; [lia|]. intros _.
    destruct clocks as [|c cs];
      [unfold Part000.updates; cbn [fold_left]; lia|].
    apply Ipos. discriminate.
Qed.

(** X13: from the start of the process on, after any number of counted
    requests at any clock readings, the quotas are still 1000, each
    counter lies between 0 and the number of requests counted, and the
    remaining numbers the pages show lie between 0 and 1000: they never
    go negative, however many requests were made. *)
Theorem remaining_stays_within_quota (start start' : Z)
    (clocks : list Part000.Clock) :
  let rl := Part000.updates clocks (Part000.RATE_LIMIT_init start start') in
  Part000.hourly rl = 1000 /\ Part000.daily rl = 1000
  /\ 0 <= Part000.hourlyCount rl <= Z.of_nat (length clocks)
  /\ 0 <= Part000.dailyCount rl <= Z.of_nat (length clocks)
  /\ 0 <= fst (Part000.getRemainingRequests rl) <= 1000
  /\ 0 <= snd (Part000.getRemainingRequests rl) <= 1000
  /\ Part000.getRemainingRequests rl
     = (Z.max 0 (1000 - Part000.hourlyCount rl),
        Z.max 0 (1000 - Part000.dailyCount rl)).
Proof.
  intros rl.
  destruct (Part000_counters_bounded clocks (Part000.RATE_LIMIT_init start start'))
    as (Hq & Hq' & Hc & Hc' & _); [simpl; lia..|].
  fold rl in Hq, Hq', Hc, Hc'. simpl in Hq, Hq', Hc, Hc'.
  unfold Part000.getRemainingRequests. rewrite Hq, Hq'. simpl fst. simpl snd.
  repeat split; try lia.
Qed.

Lemma Part000_hourly_run (clocks : list Part000.Clock) :
  forall rl : Part000.RateLimit,
    Forall (fun clock => Part000.new_Date clock < Part000.hourlyResetTime rl) clocks ->
    let rl' := Part000.updates clocks rl in
    Part000.hourlyCount rl' = Part000.hourlyCount rl + Z.of_nat (length clocks)
    /\ Part000.hourlyResetTime rl' = Part000.hourlyResetTime rl
    /\ fst (Part000.getRemainingRequests rl')
       = Z.max 0 (Part000.hourly rl - Part000.hourlyCount rl
                  - Z.of_nat (length clocks)).
Proof.
  induction clocks as [|clock clocks IH]; intros rl Hall.
  - simpl. repeat split; try lia; f_equal; lia.
  - change (Part000.updates (clock :: clocks) rl)
      with (Part000.updates clocks (Part000.updateRateLimit clock rl)).
    inversion Hall as [|c cs Hclock Hrest]; subst.
    destruct (Part000_update_fields clock rl)
      as (Hq & _ & Hc & _ & Ht & _).
    replace (Part000.new_Date clock >=? Part000.hourlyResetTime rl) with false
      in Hc, Ht by (symmetry; rewrite Z.geb_leb; apply Z.leb_gt; lia).
    destruct (IH (Part000.updateRateLimit clock rl)) as (Ic & It & Ir).
    { rewrite Ht. exact Hrest. }
    cbv zeta. rewrite Ic, It, Ir, Hc, Ht, Hq. simpl length.
    split; [lia|]. split; [reflexivity|]. f_equal. lia.
Qed.

(** X14: as long as the hour's window has not run out, every counted
    request adds one to the hourly counter and the window stays as it
    is; so the remaining number shown drops by one per request until it
    reaches 0 and then stays 0. *)
Theorem hourly_counter_counts_requests (clocks : list Part000.Clock) :
  forall rl : Part000.RateLimit,
    Forall (fun clock => Part000.new_Date clock < Part000.hourlyResetTime rl) clocks ->
    let rl' := Part000.updates clocks rl in
    Part000.hourlyCount rl' = Part000.hourlyCount rl + Z.of_nat (length clocks)
    /\ Part000.hourlyResetTime rl' = Part000.hourlyResetTime rl
    /\ fst (Part000.getRemainingRequests rl')
       = Z.max 0 (Part000.hourly rl - Part000.hourlyCount rl
                  - Z.of_nat (length clocks)).
Proof. apply Part000_hourly_run. Qed.

Lemma hourly_counter_counts_requests_witness :
  let at_ (t : Z) := Part000.mkClock t t t in
  let rl := Part000.updates [at_ 1000; at_ 2000; at_ 3000] (Part000.RATE_LIMIT_init 0 0) in
  Part000.hourlyCount rl = 3
  /\ fst (Part000.getRemainingRequests rl) = 997.
Proof.
  intros at_ rl.
  destruct (hourly_counter_counts_requests [at_ 1000; at_ 2000; at_ 3000]
              (Part000.RATE_LIMIT_init 0 0)) as (Hc & _ & Hr).
  - repeat constructor; simpl; lia.
  - split; [exact Hc | exact Hr].
Defined.

(** One counted request, window by window: a request at or after the end
    of a window starts a new one and is the first of it. *)
Lemma Part000_update_windows (clock : Part000.Clock) (rl : Part000.RateLimit) :
  let rl' := Part000.updateRateLimit clock rl in
  (Part000.hourlyResetTime rl <= Part000.new_Date clock ->
   Part000.hourlyCount rl' = 1
   /\ Part000.hourlyResetTime rl' = Part000.Date_now_hourly clock + 3600000)
  /\ (Part000.dailyResetTime rl <= Part000.new_Date clock ->
      Part000.dailyCount rl' = 1
      /\ Part000.dailyResetTime rl' = Part000.Date_now_daily clock + 86400000)
  /\ (Part000.new_Date clock < Part000.hourlyResetTime rl ->
      Part000.hourlyCount rl' = Part000.hourlyCount rl + 1
      /\ Part000.hourlyResetTime rl' = Part000.hourlyResetTime rl)
  /\ (Part000.new_Date clock < Part000.dailyResetTime rl ->
      Part000.dailyCount rl' = Part000.dailyCount rl + 1
      /\ Part000.dailyResetTime rl' = Part000.dailyResetTime rl).
Proof.
  intros rl'.
  destruct (Part000_update_fields clock rl) as (_ & _ & Hc & Hc' & Ht & Ht').
  fold rl' in Hc, Hc', Ht, Ht'.
  assert (Hge : forall a b, b <= a -> (a >=? b) = true)
    by (intros a b Hab; rewrite Z.geb_leb; apply Z.leb_le; exact Hab).
  assert (Hlt : forall a b, a < b -> (a >=? b) = false)
    by (intros a b Hab; rewrite Z.geb_leb; apply Z.leb_gt; exact Hab).
  split; [|split; [|split]]; intros Hwin.
  - rewrite Hc, Ht, (Hge _ _ Hwin). split; reflexivity.
  - rewrite Hc', Ht', (Hge _ _ Hwin). split; reflexivity.
  - rewrite Hc, Ht, (Hlt _ _ Hwin). split; reflexivity.
  - rewrite Hc', Ht', (Hlt _ _ Hwin). split; reflexivity.
Qed.

(** X15: the first request counted at or after the end of the hour's
    window starts a new window that ends one hour after the reset, and
    counts as its first request: after [n] more requests inside the new
    window the hourly counter is [n + 1], whatever it was before the
    reset, even far beyond the quota. *)
Theorem new_window_counts_from_one (clock : Part000.Clock)
    (clocks : list Part000.Clock) (rl : Part000.RateLimit) :
  Part000.hourlyResetTime rl <= Part000.new_Date clock ->
  Forall (fun c => Part000.new_Date c < Part000.Date_now_hourly clock + 3600000)
         clocks ->
  let rl' := Part000.updates (clock :: clocks) rl in
  Part000.hourlyCount rl' = Z.of_nat (length clocks) + 1
  /\ Part000.hourlyResetTime rl' = Part000.Date_now_hourly clock + 3600000
  /\ fst (Part000.getRemainingRequests rl')
     = Z.max 0 (Part000.hourly rl - 1 - Z.of_nat (length clocks)).
Proof.
  intros Hreset Hall rl'. subst rl'.
  change (Part000.updates (clock :: clocks) rl)
    with (Part000.updates clocks (Part000.updateRateLimit clock rl)).
  destruct (proj1 (Part000_update_windows clock rl) Hreset) as [Hc Ht].
  destruct (Part000_update_fields clock rl) as (Hq & _).
  destruct (Part000_hourly_run clocks (Part000.updateRateLimit clock rl))
    as (Ic & It & Ir); [rewrite Ht; exact Hall|].
  rewrite Ic, It, Ir, Hc, Ht, Hq. split; [lia|]. split; [reflexivity|].
  f_equal; lia.
Qed.

Lemma new_window_counts_from_one_witness :
  let at_ (t : Z) := Part000.mkClock t t t in
  let spent := Part000.mkRateLimit 1000 1000 5000 5000 3600000 86400000 in
  let rl := Part000.updates [at_ 3600000; at_ 3600500; at_ 3601000] spent in
  fst (Part000.getRemainingRequests spent) = 0
  /\ Part000.hourlyCount rl = 3
  /\ fst (Part000.getRemainingRequests rl) = 997.
Proof.
  intros at_ spent rl. split; [reflexivity|].
  destruct (new_window_counts_from_one (at_ 3600000)
              [at_ 3600500; at_ 3601000] spent) as (Hc & _ & Hr).
  - simpl. lia.
  - repeat constructor; simpl; lia.
  - split; [exact Hc | exact Hr].
Defined.


(** X19: [/api/today], case by case: today's record from the cache
    without a request; or, on a miss, one request without a [date]
    parameter (timeout 30 s, IPv4) and then either the record as JSON
    with status 200, stored under the provider's date and today's key,
    or status 500 with the message of [getErrorMessage] and nothing
    written. *)
Theorem api_today_cases (env : Env) (st : Server) :
  let key := Index.today (now env) in
  let req := Request.mk (API_KEY env) None 30000 (Some 4) in
  (forall data, apodCache st !! key = Some data ->
     Part001.get_api_today env st = mkStep (inl (Part001.json_data data)) st [])
  /\ (forall resp, apodCache st !! key = None -> axios_get env req = inl resp ->
      Part001.get_api_today env st
        = mkStep (inl (Part001.json_data (Response.data resp)))
            (written None key resp (meanwhile env st)) [req])
  /\ (forall e, apodCache st !! key = None -> axios_get env req = inr e ->
      Part001.get_api_today env st
        = mkStep (inl (Part001.json_error
                         (Part001.getErrorMessage e
                            "Failed to fetch today's picture.")))
            (meanwhile env st) [req]).
Proof.
  intros key req. unfold Part001.get_api_today. split; [|split].
  - intros data Hhit. rewrite try_render_catch.
    rewrite (Part001_fetch_hit env st None data Hhit). reflexivity.
  - intros resp Hmiss Hnet. rewrite try_render_catch.
    rewrite (Part001_fetch_fulfilled env st None resp Hmiss Hnet). reflexivity.
  - intros e Hmiss Hnet. rewrite try_render_catch.
    rewrite (Part001_fetch_rejected env st None e Hmiss Hnet). reflexivity.
Qed.

Lemma api_today_cases_witness :
  let env := env_jan2 (fails (err_status 429 (BodyObject (Some "Slow down")))) in
  apodCache st_jan1 !! Index.today (now env) = None
  /\ Part001.get_api_today env st_jan1
     = mkStep (inl (mkReply 500 None None (Some Index.MSG_RATE_LIMIT) None None))
         st_jan1 [Request.mk "DEMO_KEY" None 30000 (Some 4)].
Proof.
  intros env.
  assert (Hmiss : apodCache st_jan1 !! Index.today (now env) = None)
    by (vm_compute; reflexivity).
  split; [exact Hmiss|].
  exact (proj2 (proj2 (api_today_cases env st_jan1))
           (err_status 429 (BodyObject (Some "Slow down"))) Hmiss eq_refl).
Defined.

(** X17: what the home page of [index.js] does, case by case: today's
    record from the cache without a request; or, on a miss, one request
    without a [date] parameter and then either the record that came
    back, stored and rendered with status 200, or status 500 with the
    message of the error helper and nothing written. *)
Theorem home_page_cases (env : Env) (st : Server) :
  let key := Index.today (now env) in
  let req := Request.mk (API_KEY env) None 25000 None in
  (forall data, apodCache st !! key = Some data ->
     Index.get_root env st = mkStep (inl (Index.render_data data)) st [])
  /\ (forall resp, apodCache st !! key = None -> axios_get env req = inl resp ->
      Index.get_root env st
        = mkStep (inl (Index.render_data (Response.data resp)))
            (written None key resp (meanwhile env st)) [req])
  /\ (forall e, apodCache st !! key = None -> axios_get env req = inr e ->
      Index.get_root env st
        = mkStep (inl (Index.handleError e "Failed to fetch today's picture."))
            (meanwhile env st) [req]).
Proof.
  intros key req. split; [|split].
  - intros data Hhit. rewrite get_root_run.
    rewrite (Index_fetch_hit env st None data Hhit). reflexivity.
  - intros resp Hmiss Hnet. rewrite get_root_run.
    rewrite (Index_fetch_fulfilled env st None resp Hmiss Hnet). reflexivity.
  - intros e Hmiss Hnet. rewrite get_root_run.
    rewrite (Index_fetch_rejected env st None e Hmiss Hnet). reflexivity.
Qed.

Lemma home_page_cases_witness :
  let env := env_jan2 (fails err_timeout) in
  apodCache st_jan1 !! Index.today (now env) = None
  /\ Index.get_root env st_jan1
     = mkStep (inl (mkReply 500 (Some "index.ejs") None
                      (Some Index.MSG_TIMEOUT) None None))
         st_jan1 [Request.mk "DEMO_KEY" None 25000 None].
Proof.
  intros env.
  assert (Hmiss : apodCache st_jan1 !! Index.today (now env) = None)
    by (vm_compute; reflexivity).
  split; [exact Hmiss|].
  exact (proj2 (proj2 (home_page_cases env st_jan1)) err_timeout Hmiss eq_refl).
Defined.

(* ===================================================================== *)
(** * Numbers in the rate-limit headers *)
(* ===================================================================== *)

Lemma digit_not_special (c : ascii) :
  JS.is_digit c = true ->
  JS.is_space c = false /\ Ascii.eqb c "-" = false /\ Ascii.eqb c "+" = false
  /\ Ascii.eqb c "x" = false /\ Ascii.eqb c "X" = false.
Proof.
  intros Hd. unfold JS.is_digit in Hd.
  apply andb_true_iff in Hd as [Hlo Hhi].
  apply Z.leb_le in Hlo. apply Z.leb_le in Hhi.
  assert (Hne : forall k : ascii, JS.code k < 48 \/ 57 < JS.code k ->
                                  Ascii.eqb c k = false).
  { intros k Hk. apply Ascii.eqb_neq. intros ->. lia. }
  split.
  - unfold JS.is_space. cbv zeta.
    replace (JS.code c <=? 13) with false by (symmetry; apply Z.leb_gt; lia).
    replace (JS.code c =? 32) with false by (symmetry; apply Z.eqb_neq; lia).
    replace (JS.code c =? 160) with false by (symmetry; apply Z.eqb_neq; lia).
    rewrite andb_false_r. reflexivity.
  - repeat split; apply Hne; vm_compute; intuition congruence.
Qed.

Lemma digits_prefix_value (s : string) :
  forall acc v,
    JS.digits_value acc s = Some v ->
    JS.digits_prefix JS.dec_val 10 (Some acc) s = Some v.
Proof.
  induction s as [|c s IH]; intros acc v Hv; simpl in *.
  - exact Hv.
  - unfold JS.dec_val. destruct (JS.is_digit c); [|discriminate].
    apply IH. exact Hv.
Qed.

Lemma digits_value_nonneg (s : string) :
  forall acc v, 0 <= acc -> JS.digits_value acc s = Some v -> 0 <= v.
Proof.
  induction s as [|c s IH]; intros acc v Hacc Hv; simpl in Hv.
  - injection Hv as <-. exact Hacc.
  - destruct (JS.is_digit c) eqn:Hc; [|discriminate].
    apply (IH (acc * 10 + JS.digit_val c) v); [|exact Hv].
    unfold JS.is_digit in Hc. apply andb_true_iff in Hc as [Hlo _].
    apply Z.leb_le in Hlo. unfold JS.digit_val. lia.
Qed.

(** [round53 p] is a double nearest to [p]: a multiple [q * 2^s] of the
    unit [2^s] of the binade of [p], with [q <= 2^53], at most half a
    unit away. *)
Lemma round53_nearest (p : Z) :
  0 <= p ->
  exists q,
    JS.round53 p = q * 2 ^ Z.max 0 (Z.log2 p - 52)
    /\ 0 <= q <= 2 ^ 53
    /\ 2 * Z.abs (JS.round53 p - p) <= 2 ^ Z.max 0 (Z.log2 p - 52).
Proof.
  intros Hp.
  destruct (Z_lt_le_dec p (2 ^ 53)) as [Hlt|Hge].
  - assert (Hl : Z.log2 p <= 52).
    { destruct (Z.eq_dec p 0) as [->|Hn]; [cbn; lia|].
      assert (Z.log2 p < 53) by (apply Z.log2_lt_pow2; lia). lia. }
    rewrite round53_small by lia. rewrite Z.max_l by lia.
    exists p. change (2 ^ 0) with 1. lia.
  - assert (Hl : 53 <= Z.log2 p) by (apply Z.log2_le_pow2; lia).
    rewrite Z.max_r by lia.
    unfold JS.round53.
    destruct (Z.leb_spec (Z.log2 p - 52) 0) as [Hle|_]; [lia|].
    cbv zeta.
    set (s := Z.log2 p - 52).
    assert (Hs : 0 < 2 ^ (s - 1)) by (apply Z.pow_pos_nonneg; lia).
    assert (H2 : 2 ^ s = 2 * 2 ^ (s - 1)).
    { replace s with (1 + (s - 1)) at 1 by lia.
      rewrite Z.pow_add_r by lia. reflexivity. }
    pose proof (Z.div_mod p (2 ^ s) ltac:(lia)) as Hdm.
    pose proof (Z.mod_pos_bound p (2 ^ s) ltac:(lia)) as Hm.
    assert (Hq : 0 <= p / 2 ^ s < 2 ^ 53).
    { split; [apply Z.div_pos; lia|].
      apply Z.div_lt_upper_bound; [lia|].
      rewrite <- Z.pow_add_r by lia.
      replace (s + 53) with (Z.succ (Z.log2 p)) by (subst s; lia).
      apply Z.log2_spec. lia. }
    set (q := p / 2 ^ s) in *. set (r := p mod 2 ^ s) in *.
    set (half := 2 ^ (s - 1)) in *.
    destruct (Z.gtb_spec r half) as [Hgt|Hngt]; cbn [orb].
    + exists (q + 1). split; [reflexivity|]. split; [lia|]. nia.
    + destruct (Z.eqb_spec r half) as [He|Hne]; cbn [andb].
      * destruct (Z.odd q).
        -- exists (q + 1). split; [reflexivity|]. split; [lia|]. nia.
        -- exists q. split; [reflexivity|]. split; [lia|]. nia.
      * exists q. split; [reflexivity|]. split; [lia|]. nia.
Qed.

(** Up to 2^53 an integer is its own Number. *)
Lemma to_number_exact (n : Z) : 0 <= n <= 2 ^ 53 -> JS.to_number n = JS.Num n.
Proof.
  intros Hn. unfold JS.to_number. rewrite Z.abs_eq by lia.
  assert (Hr : JS.round53 n = n).
  { destruct (Z.eq_dec n (2 ^ 53)) as [->|Hne]; [reflexivity|].
    apply round53_small. lia. }
  rewrite Hr.
  destruct (Z.geb_spec n (2 ^ 1024)) as [Hbig|_].
  - assert (2 ^ 53 < 2 ^ 1024) by (apply Z.pow_lt_mono_r; lia). lia.
  - f_equal. destruct (Z.eq_dec n 0) as [->|Hne]; [reflexivity|].
    rewrite Z.sgn_pos by lia. lia.
Qed.

(** Below 2^1023 the Number of an integer is finite and within half a
    unit of it. *)
Lemma to_number_nearest (n : Z) :
  0 <= n < 2 ^ 1023 ->
  exists w, JS.to_number n = JS.Num w
            /\ 2 * Z.abs (w - n) <= 2 ^ Z.max 0 (Z.log2 n - 52).
Proof.
  intros Hn. unfold JS.to_number. rewrite Z.abs_eq by lia.
  destruct (round53_nearest n) as (q & Hq & Hqb & Hnear); [lia|].
  assert (Hl : Z.log2 n < 1023).
  { destruct (Z.eq_dec n 0) as [->|Hne]; [cbn; lia|].
    apply Z.log2_lt_pow2; lia. }
  assert (Hu : 2 ^ Z.max 0 (Z.log2 n - 52) <= 2 ^ 1023).
  { apply Z.pow_le_mono_r; lia. }
  assert (H24 : 2 ^ 1024 = 2 * 2 ^ 1023).
  { change 1024 with (1 + 1023). rewrite Z.pow_add_r by lia. reflexivity. }
  destruct (Z.geb_spec (JS.round53 n) (2 ^ 1024)) as [Hbig|Hok].
  - lia.
  - exists (JS.round53 n). split; [|exact Hnear].
    f_equal. destruct (Z.eq_dec n 0) as [->|Hne]; [reflexivity|].
    rewrite Z.sgn_pos by lia. lia.
Qed.

(** [parseInt] reads a non-empty string of decimal digits as the Number
    of the integer it writes. *)
Lemma parseInt_decimal (s : string) (n : Z) :
  s <> "" -> JS.digits_value 0 s = Some n -> JS.parseInt s = JS.to_number n.
Proof.
  intros Hs Hv. destruct s as [|c r]; [congruence|].
  simpl in Hv. destruct (JS.is_digit c) eqn:Hc; [|discriminate].
  destruct (digit_not_special c Hc) as (Hsp & Hminus & Hplus & _).
  unfold JS.parseInt. cbn [JS.skip_spaces]. rewrite Hsp, Hminus, Hplus.
  assert (Hdec : JS.digits_prefix JS.dec_val 10 None (String c r) = Some n).
  { cbn [JS.digits_prefix]. unfold JS.dec_val at 1. rewrite Hc.
    apply digits_prefix_value. exact Hv. }
  destruct r as [|cx r'].
  - rewrite Hdec. f_equal. lia.
  - simpl in Hv. destruct (JS.is_digit cx) eqn:Hcx; [|discriminate].
    destruct (digit_not_special cx Hcx) as (_ & _ & _ & Hx & HX).
    rewrite Hx, HX, andb_false_r, Hdec. f_equal. lia.
Qed.

(** The first integer that is not a double is read as its even
    neighbour; a string of 310 digits is read as [Infinity]. *)
Example parseInt_rounds :
  JS.parseInt "9007199254740992" = JS.Num 9007199254740992
  /\ JS.parseInt "9007199254740993" = JS.Num 9007199254740992
  /\ JS.parseInt "9007199254740995" = JS.Num 9007199254740996
  /\ JS.parseInt "-9007199254740993" = JS.Num (-9007199254740992).
Proof. vm_compute. repeat split; reflexivity. Qed.

(** X18: a rate-limit header that consists of decimal digits sets its
    field, for both headers and whatever the snapshot held, to the
    Number of the integer [n] it writes (leading zeros included): [n]
    itself up to 2^53, and beyond that the double nearest to [n], at
    most half a unit of its binade away. *)
Theorem numeric_header_is_read_exactly (headers : gmap string string)
    (rl : RateLimit) (v : string) (n : Z) :
  v <> "" ->
  JS.digits_value 0 v = Some n ->
  0 <= n
  /\ JS.parseInt v = JS.to_number n
  /\ (n <= 2 ^ 53 -> JS.to_number n = JS.Num n)
  /\ (n < 2 ^ 1023 ->
      exists w, JS.to_number n = JS.Num w
                /\ 2 * Z.abs (w - n) <= 2 ^ Z.max 0 (Z.log2 n - 52))
  /\ (headers !! "x-ratelimit-limit" = Some v ->
      limit (Index.updateRateLimit headers rl) = JS.to_number n)
  /\ (headers !! "x-ratelimit-remaining" = Some v ->
      remaining (Index.updateRateLimit headers rl) = JS.to_number n
      /\ Index.getRemainingRequests
           (mkServer ∅ (Index.updateRateLimit headers rl)) = JS.to_number n).
Proof.
  intros Hv Hn.
  assert (Ht : JS.truthy v = true) by (destruct v; [congruence | reflexivity]).
  pose proof (parseInt_decimal v n Hv Hn) as Hp.
  assert (H0 : 0 <= n) by (apply (digits_value_nonneg v 0 n); [lia | exact Hn]).
  split; [exact H0|]. split; [exact Hp|].
  split; [intros Hle; apply to_number_exact; lia|].
  split; [intros Hlt; apply to_number_nearest; lia|].
  split.
  - intros Hh. rewrite updateRateLimit_limit, Hh. simpl. rewrite Ht. exact Hp.
  - intros Hh.
    assert (Hr : remaining (Index.updateRateLimit headers rl) = JS.to_number n)
      by (rewrite updateRateLimit_remaining, Hh; simpl; rewrite Ht; exact Hp).
    split; [exact Hr|]. unfold Index.getRemainingRequests. exact Hr.
Qed.

Lemma numeric_header_is_read_exactly_witness :
  "9007199254740993" <> ""
  /\ JS.digits_value 0 "9007199254740993" = Some 9007199254740993
  /\ remaining (Index.updateRateLimit
                  {[ "x-ratelimit-remaining" := "9007199254740993" ]}
                  Index.RATE_LIMIT_init)
     = JS.to_number 9007199254740993
  /\ JS.to_number 9007199254740993 = JS.Num 9007199254740992.
Proof.
  assert (Hv : "9007199254740993" <> "") by discriminate.
  assert (Hn : JS.digits_value 0 "9007199254740993" = Some 9007199254740993)
    by reflexivity.
  split; [exact Hv|]. split; [exact Hn|].
  split; [|reflexivity].
  destruct (numeric_header_is_read_exactly
              {[ "x-ratelimit-remaining" := "9007199254740993" ]}
              Index.RATE_LIMIT_init "9007199254740993" 9007199254740993
              Hv Hn) as (_ & _ & _ & _ & _ & Hrem).
  exact (proj1 (Hrem eq_refl)).
Defined.
